(* ===== verification/_CoqProject ===== *)
-Q . S2P
Prelude.v
JsObject.v
Dom.v
Turndown.v
Platform.v
Readability.v
Metadata.v
Pipeline.v
Tools.v
BatchLoop.v
Server.v
Readme.v
FrontMatter.v
Effects.v
