(* ===== verification/Prelude.v ===== *)
(** * A verification development for the fetch MCP server

    The program ([src/build/index.js], documented by [src/unnamed/part_000],
    its README) is a Model Context Protocol server with two tools.
    [fetch_url] downloads one page with axios, optionally isolates the
    article with Readability, converts HTML to markdown with Turndown and
    optionally prepends a front-matter block of page metadata harvested
    from the DOM.  [fetch_urls] runs the same pipeline over a list of URLs,
    one after the other, and renders one markdown report.

    ** How the parts interact

    A [tools/call] request reaches [call_tool] ([Tools]), which validates
    the arguments against the zod schema and runs a handler.  Both
    handlers call [fetchSingleUrl] ([Pipeline]): one [axios.get]
    ([Platform.axios_get]), then [extractReadableContent]
    ([Readability]) and the Turndown service ([Turndown]) on the body,
    then, with [includeMetadata], the metadata harvester ([Metadata]) on
    the jsdom tree ([Dom]), collected in a JavaScript object ([JsObject])
    and printed as front matter.  Every exception of the [try] block
    becomes [{ success: false, error }].  The libraries (axios, jsdom,
    Readability, Turndown's internals, zod's URL check, [Date]) are the
    fields of the class [Platform.Platform]; every theorem holds for
    every instance.  The state the code changes is [Platform.World]: the
    log of HTTP requests issued and the lines written to stderr.  The
    program's top level ([Server.server_start], index.js 234-237)
    connects the stdio transport and writes a banner to stderr; a
    session is that start followed by any number of [tools/call]
    requests ([Effects.serve_step]).

    ** Files (in dependency order)

    - [Prelude] (this file): the scope [fetch_scope], the state-and-error
      monad [ST] that models a JavaScript [try] block over the world
      state, the JavaScript string operations the code calls
      ([String.prototype.includes], [trim], truthiness of strings,
      [Number.prototype.toString]), the shared lemmas, the hint and
      rewrite databases and the development's tactics.
    - [JsObject] ([Module JsObject]): a plain object used as a dictionary
      (the [metadata] object, index.js 98-156): an insertion-ordered
      association list with in-place update and its invariant [wf] (no
      key twice).
    - [Dom] ([Module Dom]): the tree jsdom produces and the four DOM
      operations the code calls ([querySelector], [querySelectorAll],
      [getAttribute], [textContent]).
    - [Turndown] ([Module Turndown]): the service of index.js 14-30 (its
      options, [keep(['iframe','video','audio'])], the [strikethrough]
      rule) and Turndown 7's rule dispatch that gives them meaning.
    - [Platform]: the values and errors of axios ([Response],
      [AxiosError], [JsError]), the [World], the class [Platform] and the
      collaborators [axios_get], [turndown], [console_error].
    - [Readability] ([Module Extractor]): [extractReadableContent]
      (index.js 32-50).
    - [Metadata] ([Module Metadata]): the metadata block of
      [fetchSingleUrl] (index.js 105-156): [seed_metadata],
      [fill_title], [harvest_tag], [harvest_meta_tags],
      [collect_metadata], and the specification's ordered rule table
      [meta_rules] with "the last tag wins" ([last_entry]).
    - [Pipeline] ([Module Pipeline]): [fetchSingleUrl] (index.js 82-187)
      as the sequence [axios_get], [convert_page], [add_metadata],
      [format_content] in the monad [M], with the [catch] block
      [error_message].
    - [Tools] ([Module Tools]): the zod schemas, the handlers of
      [fetch_url] (52-80) and [fetch_urls] (189-233), the batch loop
      [fetch_all], the report, and the SDK's dispatch [call_tool].
    - [BatchLoop] ([Module BatchLoop]): the two loops of the
      [fetch_urls] handler as written (194-233): the [for ... of] that
      pushes one result per URL, as a loop state [LoopState], its
      executable step [loop_step], its transition relation [step] and
      [loop_run]; the rendering loop [render_loop]; the handler
      [fetch_urls_loop] built from them.
    - [Server] ([Module Server]): the imports (2-8), the server object
      (10-13), start-up ([server_start], 234-237) and the two
      registrations as data: each tool's zod shape ([ParamKind],
      [ParamSpec], [registry]), against which the README is checked.
    - [Readme] ([Module Readme]): the README as data: the settings entry
      of "Installation", "Available Tools" with its two example calls,
      "Features", "How It Works" (each stage and the option that gates
      it), the redirect limit and "Dependencies".
    - [FrontMatter] ([Module FrontMatter]): a reader of the front-matter
      block [format_content] prints ([read_front_matter]), the inverse
      a client of the server applies.
    - [Effects] ([Module Effects]): what a fetch consults and writes:
      platforms that differ in one collaborator ([with_readability],
      [with_page_model]), the Readability-failure stderr line, and a
      session of the server ([serve_step]) and the logs it grows.
    Each component's theorems are in a companion module
    ([TurndownFacts], [MetadataFacts], [PipelineFacts], [ToolsFacts]) or
    a section after its definitions.

    ** Theorems

    - Outcomes of one fetch ([PipelineFacts]): an HTTP status of 400 or
      more, no response, a non-string body, the whole-page fallback, the
      article path and the front-matter shape; with [simplify] and no
      article a fetch is the fetch without [simplify], and a Readability
      exception changes nothing but one stderr line.
    - The batch ([ToolsFacts]): the loop refines the sequential
      specification [batch_steps] (one fetch per URL, in order, each in
      the world the previous one left); one outcome per URL; one request
      per URL; the report's text; validation before any request; the
      schema's defaults and its unchecked timeout; the error texts of
      [fetch_url].
    - Metadata ([MetadataFacts]): the if-chain is the ordered rule table;
      the last tag wins; tags never add an empty key or value, but a
      blank [<title>] adds an empty [title]; no key is an array index,
      so [Object.entries] prints in insertion order.
    - The extractor's contract and the Turndown configuration's effect.
    - The batch loop as written ([BatchLoopFacts]): every URL is
      eventually served, at its own index of [results], for good; the
      handler built from the loops equals [Tools.fetch_urls_handler]
      (a lemma linking the two models of lines 194-233).
    - The README ([ReadmeFacts]), as lemmas: it documents the registered
      shapes exactly, every advertised feature is offered by a
      registered tool, its settings entry launches this program under
      the server's name, its dependency list is the set of packages the
      program imports, and its examples validate.
    - Front matter ([FrontMatterFacts]): printing then reading gives the
      metadata and the markdown back when no key holds [": "] or a
      newline and no value a newline; since the code escapes neither, a
      value holding a newline prints as two entries, for every object.
    - A session ([EffectsFacts]): stderr holds the start-up banner and
      then only Readability-failure lines; every request goes to a URL
      a schema accepted, with the fixed configuration; the stages the
      README makes optional do not affect the result when their option
      is off.  The proofs go through a small logic of computations that
      write only such lines ([writes_ok], hint database [effects]) and
      composition lemmas shared by both logs.

    ** Bounds and fuel

    Every loop of the code ([for ... of] over the URLs, [forEach] over
    the meta tags, Turndown's walk of the tree) is a structural
    recursion or a [fold_left] over a finite list, so every theorem
    about a result is a theorem about a result that exists.  The one
    bound is [BatchLoop.loop_run]'s iteration count: the handler runs it
    with [urls.length], each iteration consumes one pending URL
    ([BatchLoopFacts.loop_run_nsteps]), and [fetch_urls_loop_refines]
    shows that this many iterations give the whole batch.  Status
    codes and timeouts are [Z]: the code compares them and passes them
    on, and never does arithmetic on them that could overflow.  A
    [z.number()] timeout may be fractional in JavaScript; the model's
    timeouts are the integer ones.

    ** Not modelled

    - The libraries' internals: axios's transport (sockets, redirects,
      decompression), jsdom's HTML parser, Readability's scoring,
      Turndown's CommonMark rules and escaping, zod's URL grammar.  They
      are fields of [Platform]; the theorems quantify over them.
    - The MCP SDK's JSON-RPC framing over stdio: [server_start] models
      [server.connect] as opening the stream, which changes nothing of
      the world, and [serve_step] the SDK serving one [tools/call], one
      call after the other (the SDK may interleave [async] handlers);
      the [tools/list] and initialisation messages carry no logic of the
      repository's own.  zod's parse is modelled only through the two
      schemas of [Tools] that the SDK applies.
    - The README's title, clone step, "Error Handling" list and its
      "Technical Details" prose (TypeScript, ES modules, "comprehensive
      error handling"), which state no behaviour a definition can
      carry; its claims that do are compared with the code in the
      manifest's findings, through the theorems on the error paths. *)

From stdpp Require Import base list strings.
From Stdlib Require Import ZArith DecimalString.

Declare Scope fetch_scope.
Delimit Scope fetch_scope with fetch.

Create HintDb fetch discriminated.
Create Rewrite HintDb fetch_run.

(** ** The state-and-error monad

    [ST S E A] is a computation over a state [S] that returns an [A] or
    throws an [E].  The state is kept when an exception is thrown: a
    request that was issued before the throw has happened. *)

Record ST (S E A : Type) : Type := MkST { run_st : S -> S * (E + A) }.
Arguments MkST {S E A} _.
Arguments run_st {S E A} _ _.

#[export] Instance st_ret {S E} : MRet (ST S E) :=
  fun A x => MkST (fun s => (s, inr x)).

#[export] Instance st_bind {S E} : MBind (ST S E) :=
  fun A B f m => MkST (fun s =>
    match run_st m s with
    | (s', inl e) => (s', inl e)
    | (s', inr x) => run_st (f x) s'
    end).

(** [throw e]: the JavaScript [throw] statement. *)
Definition throw {S E A} (e : E) : ST S E A := MkST (fun s => (s, inl e)).

(** [try_catch m h]: [try { m } catch (e) { h(e) }] where the handler
    cannot throw; the result is a plain state transformer. *)
Definition try_catch {S E A B} (m : ST S E A) (ok : A -> B) (h : E -> B)
  : S -> S * B :=
  fun s => match run_st m s with
           | (s', inl e) => (s', h e)
           | (s', inr x) => (s', ok x)
           end.

(** [st_state f]: a step that reads the state and changes it. *)
Definition st_state {S E A} (f : S -> S * A) : ST S E A :=
  MkST (fun s => let '(s', x) := f s in (s', inr x)).

(** ** JavaScript strings

    A JavaScript string is a sequence of UTF-16 code units; the model
    uses Rocq strings, sequences of 8-bit characters.  The operations
    below are the ones the code calls. *)

(** [includes s pat] is [s.includes(pat)]: [pat] occurs in [s]. *)
Fixpoint includes (s pat : string) : bool :=
  String.prefix pat s ||
  match s with
  | EmptyString => false
  | String _ s' => includes s' pat
  end.

(** The characters [String.prototype.trim] removes, restricted to code
    units below 256: TAB, LF, VT, FF, CR, SPACE and NO-BREAK SPACE. *)
Definition js_space (c : Ascii.ascii) : bool :=
  Ascii.is_space c || bool_decide (c = Ascii.ascii_of_nat 160).

Fixpoint trim_start (s : string) : string :=
  match s with
  | EmptyString => EmptyString
  | String c s' => if js_space c then trim_start s' else s
  end.

Definition trim_end (s : string) : string :=
  String.rev (trim_start (String.rev s)).

(** [trim s] is [s.trim()]. *)
Definition trim (s : string) : string := trim_end (trim_start s).

(** The line feed ["\n"] of a JavaScript string literal. *)
Definition nl : string := String (Ascii.ascii_of_nat 10) EmptyString.

(** JavaScript truthiness of a value that is a string or absent
    ([null] or [undefined]): the empty string is falsy. *)
Definition truthy (o : option string) : bool :=
  match o with
  | Some s => negb (String.eqb s "")
  | None => false
  end.

Arguments truthy : simpl never.

(** [js_or a b] is the expression [a || b] on such values. *)
Definition js_or (a b : option string) : option string :=
  if truthy a then a else b.

(** [js_num z] is the decimal rendering of an integral JavaScript number,
    as a template literal [`${z}`] prints it. *)
Definition js_num (z : Z) : string := NilEmpty.string_of_int (Z.to_int z).

(** ** Lemmas on the monad *)

Section STLemmas.
Context {S E : Type}.

Lemma run_ret {A} (x : A) (s : S) :
  run_st (E:=E) (mret x) s = (s, inr x).
Proof. reflexivity. Qed.

Lemma run_bind {A B} (m : ST S E A) (f : A -> ST S E B) (s : S) :
  run_st (m ≫= f) s =
    match run_st m s with
    | (s', inl e) => (s', inl e)
    | (s', inr x) => run_st (f x) s'
    end.
Proof. reflexivity. Qed.

Lemma run_throw {A} (e : E) (s : S) :
  run_st (A:=A) (throw e) s = (s, inl e).
Proof. reflexivity. Qed.

Lemma run_st_state {A} (f : S -> S * A) (s : S) :
  run_st (E:=E) (st_state f) s = (fst (f s), inr (snd (f s))).
Proof. unfold st_state; simpl. by destruct (f s). Qed.

Lemma bind_ret_l {A B} (x : A) (f : A -> ST S E B) (s : S) :
  run_st (mret x ≫= f) s = run_st (f x) s.
Proof. reflexivity. Qed.

Lemma bind_ret_r {A} (m : ST S E A) (s : S) :
  run_st (m ≫= mret) s = run_st m s.
Proof. rewrite run_bind. by destruct (run_st m s) as [? []]. Qed.

Lemma bind_assoc {A B C} (m : ST S E A) (f : A -> ST S E B)
      (g : B -> ST S E C) (s : S) :
  run_st ((m ≫= f) ≫= g) s = run_st (m ≫= (fun x => f x ≫= g)) s.
Proof.
  rewrite !run_bind. destruct (run_st m s) as [s' [e|x]]; [done|].
  by rewrite run_bind.
Qed.

Lemma try_catch_bind {A B C} (m : ST S E A) (f : A -> ST S E B)
      (ok : B -> C) (h : E -> C) (s : S) :
  try_catch (m ≫= f) ok h s =
    match run_st m s with
    | (s', inl e) => (s', h e)
    | (s', inr x) => try_catch (f x) ok h s'
    end.
Proof.
  unfold try_catch. rewrite run_bind.
  by destruct (run_st m s) as [s' [e|x]].
Qed.
End STLemmas.

#[export] Hint Rewrite @run_ret @run_bind @run_throw @run_st_state : fetch_run.

(** [st_simpl] evaluates the monadic plumbing of a goal. *)
Ltac st_simpl :=
  repeat (progress (autorewrite with fetch_run; simpl)).

(** [decide_prop] proves a closed decidable proposition by evaluating
    its decision procedure. *)
Ltac decide_prop := apply (bool_decide_unpack _); vm_compute; exact I.

(** ** Lemmas on strings *)

(** stdpp makes [String.append] opaque to [simpl]; these two equations
    are its definition. *)
Lemma string_app_nil_l (b : string) : "" +:+ b = b.
Proof. reflexivity. Qed.

Lemma string_app_cons (c : Ascii.ascii) (a b : string) :
  String c a +:+ b = String c (a +:+ b).
Proof. reflexivity. Qed.

#[export] Hint Rewrite string_app_nil_l string_app_cons : fetch_run.

Lemma string_app_assoc (a b c : string) : a +:+ b +:+ c = (a +:+ b) +:+ c.
Proof. induction a as [|x a IH]; [done|]. by rewrite !string_app_cons, IH. Qed.

Lemma string_app_nil_r (a : string) : a +:+ "" = a.
Proof. induction a as [|x a IH]; [done|]. by rewrite string_app_cons, IH. Qed.

Lemma includes_prefix (s pat : string) :
  String.prefix pat s = true -> includes s pat = true.
Proof. destruct s; simpl; intros ->; done. Qed.

Lemma prefix_app (p s : string) : String.prefix p (p +:+ s) = true.
Proof.
  induction p as [|c p IH]; simpl; [by destruct s|].
  rewrite IH. by destruct (Ascii.ascii_dec c c).
Qed.

Lemma prefix_spec (p s : string) :
  String.prefix p s = true <-> exists r, s = p +:+ r.
Proof.
  revert s; induction p as [|c p IH]; intros s.
  - simpl. split; [by exists s | by destruct s].
  - destruct s as [|c' s]; simpl.
    + split; [done|]. by intros [r ?].
    + destruct (Ascii.ascii_dec c c') as [->|Hne].
      * rewrite IH. split; intros [r Hr]; exists r; [by subst|].
        by injection Hr.
      * split; [done|]. intros [r Hr]. injection Hr. congruence.
Qed.

(** [includes] is substring membership. *)
Lemma includes_spec (s pat : string) :
  includes s pat = true <-> exists a b, s = a +:+ pat +:+ b.
Proof.
  induction s as [|c s IH]; cbn [includes].
  - rewrite orb_false_r, prefix_spec. split.
    + intros [r Hr]. by exists "", r.
    + intros [a [b H]]. destruct a as [|? a]; [|done].
      by exists b.
  - rewrite orb_true_iff, prefix_spec, IH. split.
    + intros [[r Hr]|[a [b Hab]]].
      * by exists "", r.
      * exists (String c a), b. by rewrite Hab.
    + intros [a [b H]]. destruct a as [|c' a]; simpl in H.
      * left. by exists b.
      * right. injection H as -> ->. by exists a, b.
Qed.

Lemma includes_self_app (pat a b : string) :
  includes (a +:+ pat +:+ b) pat = true.
Proof. apply includes_spec. eauto. Qed.

(** A string contains every string it contains a superstring of. *)
Lemma includes_trans (s p q : string) :
  includes s p = true -> includes p q = true -> includes s q = true.
Proof.
  rewrite !includes_spec. intros [a [b ->]] [c [d ->]].
  exists (a +:+ c), (d +:+ b).
  by rewrite !string_app_assoc.
Qed.

Lemma includes_app_l (a b pat : string) :
  includes a pat = true -> includes (a +:+ b) pat = true.
Proof.
  rewrite !includes_spec. intros (x & y & ->). exists x, (y +:+ b).
  by rewrite <- !string_app_assoc.
Qed.

Lemma includes_app_r (a b pat : string) :
  includes b pat = true -> includes (a +:+ b) pat = true.
Proof.
  rewrite !includes_spec. intros (x & y & ->). exists (a +:+ x), y.
  by rewrite <- !string_app_assoc.
Qed.

Lemma includes_refl (s : string) : includes s s = true.
Proof. apply includes_spec. exists "", "". by rewrite string_app_nil_r. Qed.

Lemma truthy_Some (s : string) : truthy (Some s) = true <-> s <> "".
Proof.
  unfold truthy. rewrite negb_true_iff. destruct (String.eqb_spec s "");
  split; congruence.
Qed.

Lemma truthy_Some_false (s : string) : truthy (Some s) = false <-> s = "".
Proof.
  unfold truthy. rewrite negb_false_iff. apply String.eqb_eq.
Qed.

Lemma truthy_Some_reflect (s : string) : reflect (s <> "") (truthy (Some s)).
Proof.
  destruct (truthy (Some s)) eqn:E; constructor.
  - by apply truthy_Some.
  - apply truthy_Some_false in E. by intros [].
Qed.

Lemma js_or_truthy (a b : option string) :
  truthy a = true -> js_or a b = a.
Proof. unfold js_or. by intros ->. Qed.

Lemma js_or_falsy (a b : option string) :
  truthy a = false -> js_or a b = b.
Proof. unfold js_or. by intros ->. Qed.

(** ** Lemmas on lists *)

(** An invariant of every step of a [forEach] loop holds at its end. *)
Lemma fold_left_invariant {A B} (P : A -> Prop) (f : A -> B -> A) (l : list B) (a : A) :
  P a -> (forall a x, x ∈ l -> P a -> P (f a x)) -> P (fold_left f l a).
Proof.
  revert a. induction l as [|x l IH]; intros a Ha Hstep; simpl; [done|].
  apply IH; [apply Hstep; [left|done]|].
  intros a' y Hy. apply Hstep. by right.
Qed.

#[export] Hint Resolve includes_prefix includes_self_app includes_app_l includes_app_r includes_refl : fetch.
#[export] Hint Rewrite js_or_truthy js_or_falsy using reflexivity : fetch_run.
