(* ===== verification/JsObject.v ===== *)
(** * JavaScript objects used as dictionaries

    The code keeps the page metadata in a plain object
    ([let metadata = {}], index.js line 98), writes it with property
    assignments ([metadata.title = ...], [metadata[name] = content]) and
    prints it with [Object.entries].  A JavaScript object is an ordered
    map: assigning a property that exists replaces its value in place,
    assigning a new property appends it, and [Object.entries] lists the
    properties in insertion order (for keys that are not array indices,
    which is the case of every key the code writes; see
    [Metadata.metadata_keys_not_index]).

    [JsObject.t V] models such an object as the association list of its
    own properties in insertion order, with the laws of [get] and [set]
    the metadata theorems use (a read after a write, the keys after a
    write in place or at the end); the invariant [wf] (no key twice)
    holds of [empty] and is preserved by [set]. *)

From stdpp Require Import base list strings sets.
From S2P Require Import Prelude.

Module JsObject.

Definition t (V : Type) : Type := list (string * V).

(** [{}] *)
Definition empty {V} : t V := [].

(** [o[k]]: [undefined] is [None]. *)
Fixpoint get {V} (o : t V) (k : string) : option V :=
  match o with
  | [] => None
  | (k', v) :: o' => if decide (k = k') then Some v else get o' k
  end.

(** [o[k] = v] *)
Fixpoint set {V} (o : t V) (k : string) (v : V) : t V :=
  match o with
  | [] => [(k, v)]
  | (k', v') :: o' =>
      if decide (k = k') then (k, v) :: o' else (k', v') :: set o' k v
  end.

(** [Object.keys(o)] and [Object.entries(o)] *)
Definition keys {V} (o : t V) : list string := map fst o.
Definition entries {V} (o : t V) : list (string * V) := o.

(** The invariant: every property occurs once. *)
Definition wf {V} (o : t V) : Prop := NoDup (keys o).

Section Lemmas.
Context {V : Type}.
Implicit Types (o : t V) (k : string) (v : V).

Lemma get_set_eq o k v : get (set o k v) k = Some v.
Proof.
  induction o as [|[k' v'] o IH]; simpl; [by rewrite decide_True|].
  case_decide; simpl; [by rewrite decide_True|].
  by rewrite decide_False.
Qed.

Lemma get_set_ne o k k' v : k <> k' -> get (set o k v) k' = get o k'.
Proof.
  intros Hne. induction o as [|[k0 v0] o IH]; simpl.
  - by rewrite decide_False.
  - case_decide; subst; simpl.
    + by rewrite !decide_False.
    + by case_decide.
Qed.

Lemma get_Some_in_keys o k v : get o k = Some v -> k ∈ keys o.
Proof.
  induction o as [|[k' v'] o IH]; simpl; [done|].
  case_decide; subst; [left|]. intros Hget. right. by apply IH.
Qed.

Lemma get_None_not_in_keys o k : get o k = None <-> k ∉ keys o.
Proof.
  induction o as [|[k' v'] o IH]; simpl; [split; [set_solver|done]|].
  rewrite elem_of_cons. case_decide; subst; [split; [done|]; set_solver|].
  rewrite IH. naive_solver.
Qed.

(** Assigning an existing property keeps the order of the keys. *)
Lemma keys_set_in o k v : k ∈ keys o -> keys (set o k v) = keys o.
Proof.
  induction o as [|[k' v'] o IH]; simpl; [set_solver|].
  rewrite elem_of_cons. case_decide; subst; [done|].
  intros [?|Hin]; [done|]. simpl. by rewrite IH.
Qed.

(** Assigning a new property appends it. *)
Lemma keys_set_notin o k v : k ∉ keys o -> keys (set o k v) = keys o ++ [k].
Proof.
  induction o as [|[k' v'] o IH]; simpl; [done|].
  rewrite elem_of_cons. case_decide; subst; [set_solver|].
  intros Hnin. simpl. rewrite IH; [done|]. set_solver.
Qed.

Lemma set_notin o k v : k ∉ keys o -> set o k v = o ++ [(k, v)].
Proof.
  induction o as [|[k' v'] o IH]; simpl; [done|].
  rewrite elem_of_cons. case_decide; subst; [set_solver|].
  intros Hnin. rewrite IH; [done|]. set_solver.
Qed.

Lemma keys_app o1 o2 : keys (o1 ++ o2) = keys o1 ++ keys o2.
Proof. apply map_app. Qed.

Lemma keys_set_elem o k v k' : k' ∈ keys (set o k v) <-> k' = k \/ k' ∈ keys o.
Proof.
  destruct (decide (k ∈ keys o)).
  - rewrite keys_set_in; naive_solver.
  - rewrite keys_set_notin; [|done]. set_solver.
Qed.

Lemma wf_empty : wf (V:=V) empty.
Proof. constructor. Qed.

(** The invariant holds after every assignment. *)
Lemma set_wf o k v : wf o -> wf (set o k v).
Proof.
  unfold wf. intros Hwf. destruct (decide (k ∈ keys o)).
  - by rewrite keys_set_in.
  - rewrite keys_set_notin; [|done]. apply NoDup_app. split; [done|].
    split; [set_solver|]. apply NoDup_singleton.
Qed.

Lemma length_keys_set o k v :
  length (keys (set o k v)) = length (keys o) + (if decide (k ∈ keys o) then 0 else 1).
Proof.
  case_decide.
  - rewrite keys_set_in; [lia|done].
  - rewrite keys_set_notin, length_app; [simpl; lia|done].
Qed.

(** A property of every entry survives an assignment of an entry that
    has it. *)
Lemma set_Forall (P : string * V -> Prop) o k v :
  Forall P o -> P (k, v) -> Forall P (set o k v).
Proof.
  induction o as [|[k' v'] o IH]; simpl; intros Ho Hkv; [by constructor|].
  inversion Ho; subst. case_decide; constructor; auto.
Qed.

End Lemmas.

End JsObject.

#[export] Hint Resolve JsObject.set_wf JsObject.wf_empty : fetch.
#[export] Hint Rewrite @JsObject.get_set_eq : fetch_run.
