(* ===== verification/Dom.v ===== *)
(** * The DOM the code queries

    [new JSDOM(html)] (index.js line 123) parses a page into a document
    tree; the code then calls [document.querySelector('title')],
    [document.querySelectorAll('meta')], [tag.getAttribute(..)] and
    [element.textContent].  The HTML parser itself is a library (jsdom)
    and is a parameter of the development ([Platform.jsdom_parse]); this
    file models the tree it produces and the four DOM operations, whose
    meaning is fixed by the DOM standard:
    - [Node] is a text node or an element with its tag name (lower case,
      as the HTML parser normalises it), its attributes in source order
      (the parser drops a repeated attribute, so [getAttribute] returns
      the first) and its children;
    - [querySelectorAll doc tag] lists the elements of that tag in
      document order (pre-order), [querySelector] returns the first;
    - [textContent] concatenates the descendant text nodes in order. *)

From stdpp Require Import base list strings.
From S2P Require Import Prelude.

Module Dom.

#[warnings="-register-all"]
Inductive Node : Type :=
| Text (data : string)
| Element (tag : string) (attrs : list (string * string)) (children : list Node).

(** A document is the list of top-level nodes. *)
Definition Document : Type := list Node.

(** The elements of a tree, in document order (pre-order). *)
Fixpoint elements (n : Node) : list Node :=
  match n with
  | Text _ => []
  | Element _ _ cs =>
      n :: (fix go (l : list Node) : list Node :=
              match l with [] => [] | c :: l' => elements c ++ go l' end) cs
  end.

Definition doc_elements (d : Document) : list Node := concat (map elements d).

Definition has_tag (tag : string) (n : Node) : bool :=
  match n with
  | Element t _ _ => bool_decide (t = tag)
  | Text _ => false
  end.

(** [document.querySelectorAll(tag)] *)
Definition querySelectorAll (d : Document) (tag : string) : list Node :=
  filter (fun n => has_tag tag n = true) (doc_elements d).

(** [document.querySelector(tag)]: [null] is [None]. *)
Definition querySelector (d : Document) (tag : string) : option Node :=
  head (querySelectorAll d tag).

(** The value of the first attribute of that name. *)
Fixpoint find_attr (attrs : list (string * string)) (name : string) : option string :=
  match attrs with
  | [] => None
  | (a, v) :: attrs' => if decide (a = name) then Some v else find_attr attrs' name
  end.

(** [node.getAttribute(name)]: [null] is [None]. *)
Definition getAttribute (n : Node) (name : string) : option string :=
  match n with
  | Element _ attrs _ => find_attr attrs name
  | Text _ => None
  end.

(** [node.textContent] *)
Fixpoint textContent (n : Node) : string :=
  match n with
  | Text s => s
  | Element _ _ cs =>
      (fix go (l : list Node) : string :=
         match l with [] => "" | c :: l' => textContent c +:+ go l' end) cs
  end.

End Dom.
