(* ===== verification/Turndown.v ===== *)
(** * The Turndown service (index.js 15-30)

    The repository configures one Turndown service: its options (ATX
    headings, fenced code, [-] bullets, [*] emphasis, [**] strong), a
    [keep] of [iframe], [video] and [audio], and an added rule
    [strikethrough] that renders [del], [s] and [strike] as [~~content~~].

    Turndown itself is a library.  This file models the part of it that
    gives the configuration its meaning, Turndown 7's rule dispatch:
    - [Rule]: a filter (a tag name, a list of tag names, or a predicate)
      and a replacement function of the converted content and the node;
    - [Service]: the rule array (the CommonMark rules, [addRule] puts a
      rule in front of it), the [keep] and [remove] arrays ([keep]
      likewise puts its rule in front);
    - [for_node]: a blank node takes the blank rule, otherwise the first
      matching rule of the array, else of [keep], else of [remove], else
      the default rule;
    - [convert]: a text node is escaped, an element is the chosen rule's
      replacement of its converted children, the flanking whitespace put
      back around it.
    The pieces of Turndown that the repository does not configure (the
    CommonMark rules, escaping, blankness, block elements, the
    [outerHTML] of a node, flanking whitespace, joining and the final
    trimming) are the fields of the record [Library].

    Theorems: the strikethrough rule wins for [del], [s] and [strike]
    ([for_node_strikethrough]) and renders [~~content~~]
    ([convert_strikethrough]); a kept element that no earlier rule claims
    is passed through as its [outerHTML] ([convert_keep]). *)

From stdpp Require Import base list strings.
From S2P Require Import Prelude Dom.

Module Turndown.
Import Dom.

(** The options object of [new TurndownService({...})]. *)
Record Options : Type := MkOptions {
  headingStyle : string;
  codeBlockStyle : string;
  bulletListMarker : string;
  emDelimiter : string;
  strongDelimiter : string
}.

Inductive Filter : Type :=
| FTag (tag : string)
| FTags (tags : list string)
| FFun (f : Options -> Node -> bool).

Record Rule : Type := MkRule {
  rule_filter : Filter;
  rule_replacement : string -> Node -> string
}.

Record Library : Type := MkLibrary {
  lib_commonmark : Options -> list Rule;
  lib_escape : string -> string;
  lib_is_blank : Node -> bool;
  lib_is_block : Node -> bool;
  lib_outer_html : Node -> string;
  lib_flanking : Node -> string * string;
  lib_join : string -> string -> string;
  lib_blank_replacement : string -> Node -> string;
  lib_default_replacement : string -> Node -> string;
  lib_parse : string -> list Node;
  lib_post : string -> string
}.

Record Service : Type := MkService {
  sv_options : Options;
  sv_rules : list Rule;
  sv_keep : list Rule;
  sv_remove : list Rule
}.

Definition node_tag (n : Node) : option string :=
  match n with Element t _ _ => Some t | Text _ => None end.

Definition filter_matches (opts : Options) (f : Filter) (n : Node) : bool :=
  match f, node_tag n with
  | FTag t, Some t' => bool_decide (t = t')
  | FTags ts, Some t' => bool_decide (t' ∈ ts)
  | FFun p, Some _ => p opts n
  | _, None => false
  end.

Definition find_rule (opts : Options) (rs : list Rule) (n : Node) : option Rule :=
  List.find (fun r => filter_matches opts (rule_filter r) n) rs.

Section Engine.
Variable lib : Library.

(** [new TurndownService(options)] *)
Definition new_service (opts : Options) : Service :=
  MkService opts (lib_commonmark lib opts) [] [].

(** Turndown's [keepReplacement]. *)
Definition keep_replacement (content : string) (n : Node) : string :=
  if lib_is_block lib n then nl +:+ nl +:+ lib_outer_html lib n +:+ nl +:+ nl
  else lib_outer_html lib n.

(** [service.keep(tags)] *)
Definition keep (svc : Service) (tags : list string) : Service :=
  MkService (sv_options svc) (sv_rules svc)
            (MkRule (FTags tags) keep_replacement :: sv_keep svc) (sv_remove svc).

(** [service.addRule(key, rule)] *)
Definition addRule (svc : Service) (key : string) (r : Rule) : Service :=
  MkService (sv_options svc) (r :: sv_rules svc) (sv_keep svc) (sv_remove svc).

(** [rules.forNode(node)]: the replacement function chosen for a node. *)
Definition for_node (svc : Service) (n : Node) : string -> Node -> string :=
  if lib_is_blank lib n then lib_blank_replacement lib
  else match find_rule (sv_options svc) (sv_rules svc) n with
       | Some r => rule_replacement r
       | None =>
           match find_rule (sv_options svc) (sv_keep svc) n with
           | Some r => rule_replacement r
           | None =>
               match find_rule (sv_options svc) (sv_remove svc) n with
               | Some r => rule_replacement r
               | None => lib_default_replacement lib
               end
           end
       end.

(** [replacementForNode]: flanking whitespace is trimmed from the
    content and put back around the replacement. *)
Definition replacement_for_node (repl : string -> Node -> string) (content : string)
           (n : Node) : string :=
  let '(lead, trail) := lib_flanking lib n in
  let content' := if truthy (Some lead) || truthy (Some trail) then trim content else content in
  lead +:+ repl content' n +:+ trail.

(** [process(node)] on one node. *)
Fixpoint convert (svc : Service) (n : Node) : string :=
  match n with
  | Text s => lib_escape lib s
  | Element _ _ cs =>
      let outs := (fix go (l : list Node) : list string :=
                     match l with [] => [] | c :: l' => convert svc c :: go l' end) cs in
      replacement_for_node (for_node svc n) (fold_left (lib_join lib) outs "") n
  end.

(** [service.turndown(html)] on a string. *)
Definition turndown_string (svc : Service) (html : string) : string :=
  lib_post lib (fold_left (lib_join lib) (map (convert svc) (lib_parse lib html)) "").
End Engine.

(** Lines 15-21. *)
Definition turndown_options : Options :=
  MkOptions "atx" "fenced" "-" "*" "**".

(** Lines 25-30. *)
Definition strikethrough_rule : Rule :=
  MkRule (FTags ["del"; "s"; "strike"]) (fun content _ => "~~" +:+ content +:+ "~~").

(** Lines 15-30: the service the server converts with. *)
Definition turndownService (lib : Library) : Service :=
  addRule (keep lib (new_service lib turndown_options) ["iframe"; "video"; "audio"])
          "strikethrough" strikethrough_rule.
End Turndown.

Module TurndownFacts.
Import Dom Turndown.

Section Facts.
Variable lib : Library.

(** One step of [convert] on an element. *)
Lemma convert_element (svc : Service) (t : string) (attrs : list (string * string))
      (cs : list Node) :
  convert lib svc (Element t attrs cs) =
    replacement_for_node lib (for_node lib svc (Element t attrs cs))
      (fold_left (lib_join lib) (map (convert lib svc) cs) "") (Element t attrs cs).
Proof.
  cbn [convert]. do 3 f_equal.
Qed.

(** For [del], [s] and [strike] elements that are not blank, the
    service picks the repository's strikethrough rule: [addRule]
    puts it in front of every CommonMark rule and of the kept tags. *)
Theorem for_node_strikethrough (t : string) (attrs : list (string * string)) (cs : list Node) :
  t ∈ ["del"; "s"; "strike"] -> lib_is_blank lib (Element t attrs cs) = false ->
  for_node lib (turndownService lib) (Element t attrs cs) =
    rule_replacement strikethrough_rule.
Proof.
  intros Ht Hb. unfold for_node. rewrite Hb. simpl.
  by rewrite bool_decide_true.
Qed.

(** C14: a non-blank [del], [s] or [strike] element without flanking
    whitespace converts to its converted content between [~~]. *)
Theorem convert_strikethrough (t : string) (attrs : list (string * string)) (cs : list Node) :
  t ∈ ["del"; "s"; "strike"] -> lib_is_blank lib (Element t attrs cs) = false ->
  lib_flanking lib (Element t attrs cs) = ("", "") ->
  convert lib (turndownService lib) (Element t attrs cs) =
    "~~" +:+ fold_left (lib_join lib) (map (convert lib (turndownService lib)) cs) "" +:+ "~~".
Proof.
  intros Ht Hb Hf. rewrite convert_element. unfold for_node. rewrite Hb. simpl.
  rewrite bool_decide_true by done.
  unfold replacement_for_node. rewrite Hf.
  change (truthy (Some "")) with false. simpl.
  by rewrite string_app_nil_r.
Qed.

Lemma strikethrough_skips_kept (t : string) (attrs : list (string * string)) (cs : list Node) :
  t ∈ ["iframe"; "video"; "audio"] ->
  filter_matches turndown_options (rule_filter strikethrough_rule) (Element t attrs cs) = false.
Proof.
  intros Ht. simpl. apply bool_decide_false.
  rewrite !elem_of_cons in Ht |- *. rewrite elem_of_nil in Ht |- *.
  intros Hin. naive_solver.
Qed.

(** C15: an [iframe], [video] or [audio] element that is not blank and
    that no CommonMark rule claims is passed through: its conversion
    contains its [outerHTML] verbatim. *)
Theorem convert_keep (t : string) (attrs : list (string * string)) (cs : list Node) :
  t ∈ ["iframe"; "video"; "audio"] -> lib_is_blank lib (Element t attrs cs) = false ->
  find_rule turndown_options (lib_commonmark lib turndown_options) (Element t attrs cs) = None ->
  includes (convert lib (turndownService lib) (Element t attrs cs))
           (lib_outer_html lib (Element t attrs cs)) = true.
Proof.
  intros Ht Hb Hcm. rewrite convert_element. unfold for_node. rewrite Hb.
  cbn [turndownService addRule keep new_service sv_rules sv_keep sv_options find_rule List.find].
  rewrite strikethrough_skips_kept by done.
  change (List.find _ (lib_commonmark lib turndown_options))
    with (find_rule turndown_options (lib_commonmark lib turndown_options) (Element t attrs cs)).
  rewrite Hcm. simpl. rewrite bool_decide_true by done. simpl.
  unfold replacement_for_node. destruct (lib_flanking lib _) as [lead trail].
  apply includes_app_r, includes_app_l. unfold keep_replacement.
  destruct (lib_is_block lib _); [|apply includes_refl].
  do 2 apply includes_app_r. apply includes_app_l, includes_refl.
Qed.
End Facts.

(** ** A concrete library and the specification's examples *)

Fixpoint render_attrs (attrs : list (string * string)) : string :=
  match attrs with
  | [] => ""
  | (a, v) :: attrs' => " " +:+ a +:+ "='" +:+ v +:+ "'" +:+ render_attrs attrs'
  end.

(** A serialisation of a node, enough for the examples. *)
Fixpoint outer_html (n : Node) : string :=
  match n with
  | Text s => s
  | Element t attrs cs =>
      "<" +:+ t +:+ render_attrs attrs +:+ ">" +:+
      (fix go (l : list Node) : string :=
         match l with [] => "" | c :: l' => outer_html c +:+ go l' end) cs +:+
      "</" +:+ t +:+ ">"
  end.

(** A library with the paragraph and emphasis rules of CommonMark, no
    escaping and plain concatenation; its parser reads the two example
    pages. *)
Definition demo_lib : Library := {|
  lib_commonmark := fun opts =>
    [MkRule (FTag "p") (fun c _ => nl +:+ nl +:+ c +:+ nl +:+ nl);
     MkRule (FTags ["em"; "i"]) (fun c _ => emDelimiter opts +:+ c +:+ emDelimiter opts)];
  lib_escape := fun s => s;
  lib_is_blank := fun _ => false;
  lib_is_block := fun _ => false;
  lib_outer_html := outer_html;
  lib_flanking := fun _ => ("", "");
  lib_join := String.append;
  lib_blank_replacement := fun _ _ => "";
  lib_default_replacement := fun c _ => c;
  lib_parse := fun html =>
    if decide (html = "<del>text</del>") then [Element "del" [] [Text "text"]]
    else [Element "video" [("src", "x")] []];
  lib_post := fun s => s
|}.

(** The specification's example: [<del>text</del>] converts to
    [~~text~~]. *)
Example strikethrough_example :
  turndown_string demo_lib (turndownService demo_lib) "<del>text</del>" = "~~text~~".
Proof. vm_compute. reflexivity. Qed.

Lemma convert_keep_witness :
  includes (convert demo_lib (turndownService demo_lib) (Element "video" [("src", "x")] []))
           (lib_outer_html demo_lib (Element "video" [("src", "x")] [])) = true.
Proof.
  apply (convert_keep demo_lib "video" [("src", "x")] []);
    [decide_prop|reflexivity|reflexivity].
Defined.

Lemma convert_strikethrough_witness :
  convert demo_lib (turndownService demo_lib) (Element "s" [] [Text "old"]) =
    "~~" +:+ fold_left (lib_join demo_lib)
               (map (convert demo_lib (turndownService demo_lib)) [Text "old"]) "" +:+ "~~".
Proof.
  apply (convert_strikethrough demo_lib "s" [] [Text "old"]);
    [decide_prop|reflexivity|reflexivity].
Defined.

Lemma for_node_strikethrough_witness :
  for_node demo_lib (turndownService demo_lib) (Element "strike" [] []) =
    rule_replacement strikethrough_rule.
Proof.
  apply (for_node_strikethrough demo_lib "strike" [] []); [decide_prop|reflexivity].
Defined.
End TurndownFacts.
