(* ===== verification/Platform.v ===== *)
(** * The collaborators of the pipeline and the world they act on

    The server calls five libraries and one global: axios (the HTTP
    client), jsdom (the HTML parser), Readability (article extraction),
    Turndown (HTML to markdown), zod's URL check and [Date].  They are not
    code of the repository; the class [Platform] states what the
    repository's code may rely on from them, and every theorem of the
    development holds for every instance.

    What is modelled here, and how:
    - [JsVal]: the value [response.data] of an axios response.  axios
      returns the body as a string, or a parsed JSON value when the body
      parses as JSON; [JOther r] is such a non-string value, with [r] the
      string [String(value)] gives.
    - [World]: the observable state the pipeline changes: the log of HTTP
      requests issued ([w_requests], oldest first) and the lines written
      to standard error ([w_stderr]).
    - [net url cfg n]: what the network answers to the [n]-th request of
      the run, so that answers may change from one request to the next.
    - [axios_get]: [axios.get(url, config)] with the semantics of its
      [validateStatus] option: a response whose status the option refuses
      is thrown as an [AxiosError] carrying the response.
    - [turndown]: [turndownService.turndown(input)]: a string input is
      converted by [turndown_html], the service configured in
      [Turndown] run by the platform's [turndown_lib]; any other input
      throws the library's [TypeError].
    - [console_error]: [console.error(..)] appends a line to stderr. *)

From stdpp Require Import base list strings.
From Stdlib Require Import ZArith.
From S2P Require Import Prelude Dom Turndown.

Local Open Scope Z_scope.

(** [response.data] *)
Inductive JsVal : Type :=
| JStr (s : string)
| JOther (shown : string).

(** [String(v)], as [new JSDOM(v)] applies it to its input. *)
Definition js_String (v : JsVal) : string :=
  match v with JStr s => s | JOther r => r end.

Record Response : Type := MkResponse {
  status : Z;
  statusText : string;
  data : JsVal
}.

(** What one request gives: a response, a request that got no response
    (connection refused, DNS failure, timeout, too many redirects), or a
    request that could not be sent (unsupported protocol). *)
Inductive Transport : Type :=
| TResponse (r : Response)
| TNoResponse (message : string)
| TNotSent (message : string).

(** An [AxiosError]: [error.response], whether [error.request] is set,
    and [error.message]. *)
Record AxiosError : Type := MkAxiosError {
  ax_response : option Response;
  ax_request : bool;
  ax_message : string
}.

(** A thrown JavaScript value: an [AxiosError], another [Error] with its
    message, or a value that is not an [Error]. *)
Inductive JsError : Type :=
| ErrAxios (e : AxiosError)
| ErrError (message : string)
| ErrValue.

(** The second argument of [axios.get]. *)
Record RequestConfig : Type := MkRequestConfig {
  cfg_timeout : Z;
  cfg_headers : list (string * string);
  cfg_maxRedirects : Z;
  cfg_validateStatus : Z -> bool
}.

Record World : Type := MkWorld {
  w_requests : list (string * RequestConfig);
  w_stderr : list string
}.

(** What [new Readability(new JSDOM(html, {url}).window.document).parse()]
    gives: it throws, returns [null], or returns an article whose [title],
    [content] and [byline] may each be [null] or a string.  The
    [message] of a throw is the text [console.error] prints for the
    thrown value (Node's inspection of it, stack included), so that
    [console.error('Readability extraction failed:', error)] writes
    the prefix, a space and that text. *)
Inductive ReadResult : Type :=
| RThrow (message : string)
| RNull
| RArticle (title content byline : option string).

Class Platform : Type := {
  net : string -> RequestConfig -> nat -> Transport;
  now_iso : World -> string;
  jsdom_parse : string -> Dom.Document;
  readability_parse : string -> string -> ReadResult;
  turndown_lib : Turndown.Library;
  valid_url : string -> bool
}.

Abbreviation M := (ST World JsError).

Definition log_request (url : string) (cfg : RequestConfig) (w : World) : World :=
  MkWorld (w_requests w ++ [(url, cfg)]) (w_stderr w).

Definition log_error (line : string) (w : World) : World :=
  MkWorld (w_requests w) (w_stderr w ++ [line]).

Section Collaborators.
Context `{Platform}.

(** [turndownService.turndown(html)] on a string: the service of lines
    15-30 run by the platform's Turndown library. *)
Definition turndown_html (html : string) : string :=
  Turndown.turndown_string turndown_lib (Turndown.turndownService turndown_lib) html.

(** [await axios.get(url, cfg)] *)
Definition axios_get (url : string) (cfg : RequestConfig) : M Response :=
  MkST (fun w =>
    let sent := log_request url cfg w in
    match net url cfg (length (w_requests w)) with
    | TResponse r =>
        if cfg_validateStatus cfg (status r) then (sent, inr r)
        else (sent, inl (ErrAxios (MkAxiosError (Some r) true
                ("Request failed with status code " +:+ js_num (status r)))))
    | TNoResponse m => (sent, inl (ErrAxios (MkAxiosError None true m)))
    | TNotSent m => (w, inl (ErrAxios (MkAxiosError None false m)))
    end).

(** [turndownService.turndown(input)] *)
Definition turndown (input : JsVal) : M string :=
  match input with
  | JStr s => mret (turndown_html s)
  | JOther r =>
      throw (ErrError (r +:+ " is not a string, or an element/document/fragment node."))
  end.

(** [console.error(line)] *)
Definition console_error (line : string) : M unit :=
  st_state (fun w => (log_error line w, tt)).
End Collaborators.

(** The request log only grows. *)
Lemma log_request_requests url cfg w :
  w_requests (log_request url cfg w) = w_requests w ++ [(url, cfg)].
Proof. reflexivity. Qed.

Lemma log_error_requests line w : w_requests (log_error line w) = w_requests w.
Proof. reflexivity. Qed.

#[export] Hint Rewrite log_request_requests log_error_requests : fetch_run.

Section CollaboratorLemmas.
Context `{Platform}.

Lemma axios_get_accepted url cfg w r :
  net url cfg (length (w_requests w)) = TResponse r ->
  cfg_validateStatus cfg (status r) = true ->
  run_st (axios_get url cfg) w = (log_request url cfg w, inr r).
Proof. intros Hn Hv. unfold axios_get; simpl. by rewrite Hn, Hv. Qed.

Lemma axios_get_refused url cfg w r :
  net url cfg (length (w_requests w)) = TResponse r ->
  cfg_validateStatus cfg (status r) = false ->
  run_st (axios_get url cfg) w =
    (log_request url cfg w,
     inl (ErrAxios (MkAxiosError (Some r) true
            ("Request failed with status code " +:+ js_num (status r))))).
Proof. intros Hn Hv. unfold axios_get; simpl. by rewrite Hn, Hv. Qed.

Lemma axios_get_no_response url cfg w m :
  net url cfg (length (w_requests w)) = TNoResponse m ->
  run_st (axios_get url cfg) w =
    (log_request url cfg w, inl (ErrAxios (MkAxiosError None true m))).
Proof. intros Hn. unfold axios_get; simpl. by rewrite Hn. Qed.

Lemma turndown_string s w : run_st (turndown (JStr s)) w = (w, inr (turndown_html s)).
Proof. reflexivity. Qed.

Lemma turndown_other r w :
  run_st (turndown (JOther r)) w =
    (w, inl (ErrError (r +:+ " is not a string, or an element/document/fragment node."))).
Proof. reflexivity. Qed.

(** [turndown] touches no state. *)
Lemma turndown_world v w : fst (run_st (turndown v) w) = w.
Proof. by destruct v. Qed.
End CollaboratorLemmas.

#[export] Hint Rewrite @turndown_string @turndown_other : fetch_run.

(** A Turndown library that keeps text as it is: a page converts to its
    own text. *)
Definition echo_lib : Turndown.Library := {|
  Turndown.lib_commonmark := fun _ => [];
  Turndown.lib_escape := fun s => s;
  Turndown.lib_is_blank := fun _ => false;
  Turndown.lib_is_block := fun _ => false;
  Turndown.lib_outer_html := fun _ => "";
  Turndown.lib_flanking := fun _ => ("", "");
  Turndown.lib_join := String.append;
  Turndown.lib_blank_replacement := fun _ _ => "";
  Turndown.lib_default_replacement := fun c _ => c;
  Turndown.lib_parse := fun html => [Dom.Text html];
  Turndown.lib_post := fun s => s
|}.

(** A platform that answers every request with [answer], parses every
    page to [doc], and whose Readability returns [read]; the clock is
    fixed.  Concrete instances of this shape witness the theorems. *)
Definition static_site (answer : Transport) (doc : Dom.Document) (read : ReadResult)
  (lib : Turndown.Library) : Platform := {|
  net := fun _ _ _ => answer;
  now_iso := fun _ => "2026-11-09T00:00:00.000Z";
  jsdom_parse := fun _ => doc;
  readability_parse := fun _ _ => read;
  turndown_lib := lib;
  valid_url := fun s => String.prefix "https://" s || String.prefix "http://" s
|}.
