(* ===== verification/Readability.v ===== *)
(** * The content extractor: [extractReadableContent] (index.js 32-50)

    The extractor runs Readability on the page and keeps its result only
    when both the title and the content are truthy (non-empty strings);
    a throw of jsdom or Readability is caught, logged to stderr and turned
    into [null], exactly like a refused article.  [Extractor.Article] is
    the object the function returns ([title], [content], [byline], the
    byline [undefined] unless truthy).

    Theorems: the extractor never throws, issues no request, and returns
    [null] exactly when Readability's result fails its guard
    ([extract_contract]); an article it returns has a non-empty title
    and content and no empty byline ([extract_article_fields]); it returns
    an article exactly when Readability found one with a non-empty title
    and content ([extract_some_iff]).  The logged line is the prefix
    followed by the printed error ([Platform.RThrow]). *)

From stdpp Require Import base list strings.
From S2P Require Import Prelude Dom Platform.

Module Extractor.

Record Article : Type := MkArticle {
  art_title : string;
  art_content : string;
  art_byline : option string
}.

Section Extract.
Context `{Platform}.

(** [extractReadableContent(html, url)] *)
Definition extractReadableContent (html url : string) : M (option Article) :=
  match readability_parse html url with
  | RThrow msg =>
      console_error ("Readability extraction failed: " +:+ msg);;
      mret None
  | RNull => mret None
  | RArticle t c b =>
      match t, c with
      | Some title, Some content =>
          if truthy t && truthy c
          then mret (Some (MkArticle title content (js_or b None)))
          else mret None
      | _, _ => mret None
      end
  end.

(** Whether a Readability result passes the guard
    [article && article.title && article.content]. *)
Definition has_article (r : ReadResult) : bool :=
  match r with
  | RArticle (Some t) (Some c) _ => truthy (Some t) && truthy (Some c)
  | _ => false
  end.
End Extract.

Section Lemmas.
Context `{Platform}.

(** The extractor returns normally and issues no HTTP request. *)
Lemma extract_never_throws (html url : string) (w : World) :
  exists w' r, run_st (extractReadableContent html url) w = (w', inr r) /\
               w_requests w' = w_requests w.
Proof.
  unfold extractReadableContent.
  destruct (readability_parse html url) as [msg| |[t|] [c|] b];
    st_simpl; eauto.
  destruct (truthy (Some t) && truthy (Some c)); st_simpl; eauto.
Qed.

Lemma truthy_js_or_None (b : option string) :
  js_or b None = None \/ truthy (js_or b None) = true.
Proof. unfold js_or. destruct (truthy b) eqn:E; auto. Qed.

(** An article the extractor returns has a non-empty title and
    content, and its byline is absent or non-empty. *)
Theorem extract_article_fields (html url : string) (w w' : World) (a : Article) :
  run_st (extractReadableContent html url) w = (w', inr (Some a)) ->
  art_title a <> "" /\ art_content a <> "" /\ art_byline a <> Some "".
Proof.
  unfold extractReadableContent.
  destruct (readability_parse html url) as [msg| |[t|] [c|] b];
    st_simpl; try congruence.
  destruct (truthy_Some_reflect t) as [Ht|Ht], (truthy_Some_reflect c) as [Hc|Hc];
    simpl; st_simpl; try congruence; try tauto.
  intros Heq. injection Heq as <- <-. simpl.
  split; [done|]. split; [done|].
  destruct (truthy_js_or_None b) as [->|Hb]; [done|].
  intros Hnil. rewrite Hnil in Hb. done.
Qed.

(** The extractor returns an article exactly when Readability returned
    one whose title and content are non-empty strings; the article
    carries them unchanged. *)
Theorem extract_some_iff (html url : string) (w : World) (a : Article) :
  snd (run_st (extractReadableContent html url) w) = inr (Some a) <->
  exists b, readability_parse html url =
              RArticle (Some (art_title a)) (Some (art_content a)) b /\
            art_title a <> "" /\ art_content a <> "" /\
            art_byline a = js_or b None.
Proof.
  unfold extractReadableContent.
  destruct (readability_parse html url) as [msg| |[t|] [c|] b];
    st_simpl; try (split; [congruence|intros (? & ? & ?); congruence]).
  destruct (truthy_Some_reflect t) as [Ht|Ht], (truthy_Some_reflect c) as [Hc|Hc];
    simpl.
  2-4: split; [congruence|]; intros (b' & Heq & ? & ? & _);
    injection Heq as -> -> ->; tauto.
  split.
  - intros Heq. injection Heq as <-. simpl. eauto.
  - intros (b' & Heq & _ & _ & Hb). injection Heq as -> -> ->.
    destruct a; simpl in *; by subst.
Qed.

(** The extractor returns [null] exactly when Readability's result
    fails the guard. *)
Lemma extract_none_iff (html url : string) (w : World) :
  snd (run_st (extractReadableContent html url) w) = inr None <->
  has_article (readability_parse html url) = false.
Proof.
  unfold extractReadableContent, has_article.
  destruct (readability_parse html url) as [msg| |[t|] [c|] b];
    st_simpl; try done.
  destruct (truthy (Some t) && truthy (Some c)); st_simpl; done.
Qed.

(** The run of the extractor, when Readability's result fails the
    guard without throwing. *)
Lemma extract_run_none (html url : string) (w : World) :
  has_article (readability_parse html url) = false ->
  (forall m, readability_parse html url <> RThrow m) ->
  run_st (extractReadableContent html url) w = (w, inr None).
Proof.
  unfold extractReadableContent, has_article. intros Hno Hm.
  destruct (readability_parse html url) as [msg| |[t|] [c|] b];
    st_simpl; try done; try by destruct (Hm _ eq_refl).
  by rewrite Hno.
Qed.

(** The run of the extractor when Readability finds an article that
    passes the guard: no state change, the article returned. *)
Lemma extract_run_article (html url t c : string) (b : option string) (w : World) :
  readability_parse html url = RArticle (Some t) (Some c) b -> t <> "" -> c <> "" ->
  run_st (extractReadableContent html url) w = (w, inr (Some (MkArticle t c (js_or b None)))).
Proof.
  intros Hr Ht Hc. unfold extractReadableContent. rewrite Hr.
  by destruct (truthy_Some_reflect t), (truthy_Some_reflect c).
Qed.

(** C13: the extractor's contract: whatever the page and whatever
    Readability does, [extractReadableContent] returns normally (a
    failure is the value [null], never a throw), issues no HTTP
    request, and returns [null] exactly when Readability's result
    fails the guard [article && article.title && article.content]. *)
Theorem extract_contract (html url : string) (w : World) :
  exists w' r, run_st (extractReadableContent html url) w = (w', inr r) /\
    w_requests w' = w_requests w /\
    (r = None <-> has_article (readability_parse html url) = false).
Proof.
  destruct (extract_never_throws html url w) as (w' & r & Hrun & Hreq).
  exists w', r. split; [done|]. split; [done|].
  rewrite <- (extract_none_iff html url w), Hrun. simpl.
  split; [by intros ->|congruence].
Qed.
End Lemmas.

(** ** Witnesses *)

Definition article_site : Platform :=
  static_site (TNoResponse "unused") []
              (RArticle (Some "Title") (Some "<p>Body</p>") (Some "")) echo_lib.

Lemma extract_article_fields_witness :
  art_title (MkArticle "Title" "<p>Body</p>" None) <> "" /\
  art_content (MkArticle "Title" "<p>Body</p>" None) <> "" /\
  art_byline (MkArticle "Title" "<p>Body</p>" None) <> Some "".
Proof.
  apply (extract_article_fields (H:=article_site) "<p>Body</p>" "https://example.com/"
           (MkWorld [] []) (MkWorld [] [])).
  vm_compute. reflexivity.
Defined.
End Extractor.
