(* ===== verification/Metadata.v ===== *)
(** * The metadata harvester (index.js 105-110 and 122-156)

    When [includeMetadata] is set, [fetchSingleUrl] builds the object
    [metadata] in four stages:
    - [seed_metadata] (105-110): with an extracted article, [title] is the
      article's title and [author] its byline when there is one;
    - [fill_title] (125-131): if [metadata.title] is still falsy, the
      trimmed text of the first [<title>] element, when there is one;
    - [harvest_meta_tags] (133-152): every [<meta>] element in document
      order, through [harvest_tag]: the key candidate is the [name]
      attribute or, when that is falsy, [property]; with a truthy key and
      a truthy [content], a key containing [description], else [author],
      else [keywords] is stored under that word, else a key containing
      [og:] is stored verbatim, else the tag is ignored;
    - [collect_metadata] (122-156): the three stages above, then the
      properties [url] and [fetchedAt].

    The abstract specification is the spec's table of rules
    ([meta_rules]: ordered (substring, destination) pairs, the first match
    wins) and "the last tag wins" ([last_entry]).  Theorems:
    [harvest_meta_tags_rules] (the code's if-chain is the ordered
    table, one write per tag in document order),
    [harvest_last_wins] (each key holds the content of the last tag
    classified to it), [collect_metadata_tail] ([url] and [fetchedAt]
    are the last two entries, with the request's values),
    [harvest_entries_nonempty] (tags never add an empty key or value),
    [empty_title_entry] (a blank [<title>] adds an empty value),
    [metadata_keys_not_index] (no key is an array index, so
    [Object.entries] lists insertion order). *)

From stdpp Require Import base list strings sets.
From S2P Require Import Prelude JsObject Dom Platform Readability.

Module Metadata.
Import Dom.

Abbreviation Meta := (JsObject.t string).

(** [metadata.title = article.title; if (article.byline) metadata.author = article.byline;] *)
Definition seed_metadata (a : Extractor.Article) : Meta :=
  let md := JsObject.set JsObject.empty "title" (Extractor.art_title a) in
  match Extractor.art_byline a with
  | Some b => if truthy (Some b) then JsObject.set md "author" b else md
  | None => md
  end.

(** [tag.getAttribute('name') || tag.getAttribute('property')] *)
Definition meta_name (tag : Node) : option string :=
  js_or (getAttribute tag "name") (getAttribute tag "property").

(** The body of [metaTags.forEach((tag) => { ... })]. *)
Definition harvest_tag (md : Meta) (tag : Node) : Meta :=
  let name := meta_name tag in
  let content := getAttribute tag "content" in
  match name, content with
  | Some n, Some c =>
      if truthy name && truthy content then
        if includes n "description" then JsObject.set md "description" c
        else if includes n "author" then JsObject.set md "author" c
        else if includes n "keywords" then JsObject.set md "keywords" c
        else if includes n "og:" then JsObject.set md n c
        else md
      else md
  | _, _ => md
  end.

(** [document.querySelectorAll('meta').forEach(...)] *)
Definition harvest_meta_tags (doc : Document) (md : Meta) : Meta :=
  fold_left harvest_tag (querySelectorAll doc "meta") md.

(** [if (!metadata.title) { const titleElement = ...; ... }] *)
Definition fill_title (doc : Document) (md : Meta) : Meta :=
  if truthy (JsObject.get md "title") then md
  else match querySelector doc "title" with
       | Some t => JsObject.set md "title" (trim (textContent t))
       | None => md
       end.

(** The block [if (includeMetadata) { ... }] of lines 122-156. *)
Definition collect_metadata (doc : Document) (url fetchedAt : string) (md : Meta) : Meta :=
  let md := fill_title doc md in
  let md := harvest_meta_tags doc md in
  let md := JsObject.set md "url" url in
  JsObject.set md "fetchedAt" fetchedAt.

(** ** The abstract specification *)

(** The classification rules in priority order; [None] stores the tag
    under its own name. *)
Definition meta_rules : list (string * option string) :=
  [("description", Some "description"); ("author", Some "author");
   ("keywords", Some "keywords"); ("og:", None)].

Fixpoint classify_by (rules : list (string * option string)) (n : string) : option string :=
  match rules with
  | [] => None
  | (pat, dest) :: rules' =>
      if includes n pat then Some (default n dest) else classify_by rules' n
  end.

Definition classify (n : string) : option string := classify_by meta_rules n.

(** The property a tag writes and its value, if any. *)
Definition tag_entry (tag : Node) : option (string * string) :=
  match meta_name tag, getAttribute tag "content" with
  | Some n, Some c =>
      if truthy (Some n) && truthy (Some c) then (fun k => (k, c)) <$> classify n
      else None
  | _, _ => None
  end.

(** The last write to [k] in a sequence of tags. *)
Definition last_entry (k : string) (tags : list Node) : option string :=
  fold_left (fun acc tag =>
               match tag_entry tag with
               | Some (k', c) => if decide (k = k') then Some c else acc
               | None => acc
               end) tags None.

Fixpoint digits_only (s : string) : bool :=
  match s with
  | EmptyString => true
  | String c s' => bool_decide (Ascii.is_nat c <> None) && digits_only s'
  end.

(** Canonical array indices are among the non-empty strings of decimal
    digits; [Object.entries] lists those keys first. *)
Definition all_digits (s : string) : bool :=
  negb (String.eqb s "") && digits_only s.
End Metadata.

Module MetadataFacts.
Import Dom Metadata.

(** A destination of the rule table is one of the three fixed words, or
    the tag's own name when it contains [og:]. *)
Lemma classify_Some (n k : string) :
  classify n = Some k ->
  k = "description" \/ k = "author" \/ k = "keywords" \/
  (k = n /\ includes n "og:" = true).
Proof.
  unfold classify; simpl.
  destruct (includes n "description"), (includes n "author"),
    (includes n "keywords") eqn:?, (includes n "og:") eqn:?;
    intros Heq; injection Heq as <- || discriminate Heq; auto.
Qed.

(** One iteration of the loop is a write of [tag_entry]. *)
Lemma harvest_tag_rules (md : Meta) (tag : Node) :
  harvest_tag md tag =
    match tag_entry tag with
    | Some (k, c) => JsObject.set md k c
    | None => md
    end.
Proof.
  unfold harvest_tag, tag_entry.
  destruct (meta_name tag) as [n|], (getAttribute tag "content") as [c|];
    try done.
  destruct (truthy (Some n) && truthy (Some c)); [|done].
  unfold classify; simpl.
  by destruct (includes n "description"), (includes n "author"),
    (includes n "keywords"), (includes n "og:").
Qed.

(** C6: the code's [<meta>] loop, with its chain of
    [if (name.includes(..))] tests, is the specification's ordered table
    of rules: each tag, in document order, writes the property the first
    matching rule names with the tag's [content], and nothing else. *)
Theorem harvest_meta_tags_rules (doc : Document) (md : Meta) :
  harvest_meta_tags doc md =
    fold_left (fun m tag => match tag_entry tag with
                            | Some (k, c) => JsObject.set m k c
                            | None => m
                            end) (querySelectorAll doc "meta") md.
Proof.
  unfold harvest_meta_tags. generalize md.
  induction (querySelectorAll doc "meta") as [|tag tags IH]; intros m; [done|].
  simpl. rewrite harvest_tag_rules. apply IH.
Qed.

Lemma harvest_fold_get (tags : list Node) (md : Meta) (k : string) :
  JsObject.get (fold_left harvest_tag tags md) k =
    match last_entry k tags with
    | Some c => Some c
    | None => JsObject.get md k
    end.
Proof.
  unfold last_entry.
  induction tags as [|tag tags IH] using rev_ind; [done|].
  rewrite !fold_left_app. simpl. rewrite harvest_tag_rules.
  destruct (tag_entry tag) as [[k' c]|]; [|done].
  case_decide as Hk; subst.
  - by rewrite JsObject.get_set_eq.
  - rewrite JsObject.get_set_ne; [done|congruence].
Qed.

(** C7: the last tag wins: after the [<meta>] loop, a property holds the
    content of the last tag the rules send to it, and keeps its earlier
    value when no tag does. *)
Theorem harvest_last_wins (doc : Document) (md : Meta) (k : string) :
  JsObject.get (harvest_meta_tags doc md) k =
    match last_entry k (querySelectorAll doc "meta") with
    | Some c => Some c
    | None => JsObject.get md k
    end.
Proof. apply harvest_fold_get. Qed.

(** Every stage writes with a property assignment. *)
Lemma harvest_meta_tags_invariant (P : Meta -> Prop) (doc : Document) (md : Meta) :
  P md ->
  (forall md k c, P md -> (exists tag, tag_entry tag = Some (k, c)) ->
                  P (JsObject.set md k c)) ->
  P (harvest_meta_tags doc md).
Proof.
  intros H0 Hset. unfold harvest_meta_tags. apply fold_left_invariant; [done|].
  intros md' tag _ Hmd. rewrite harvest_tag_rules.
  destruct (tag_entry tag) as [[k c]|] eqn:E; eauto.
Qed.

Lemma fill_title_invariant (P : Meta -> Prop) (doc : Document) (md : Meta) :
  P md -> (forall v, P (JsObject.set md "title" v)) -> P (fill_title doc md).
Proof.
  intros H0 Hset. unfold fill_title. repeat case_match; auto.
Qed.

Lemma tag_entry_key (tag : Node) (k c : string) :
  tag_entry tag = Some (k, c) ->
  (k = "description" \/ k = "author" \/ k = "keywords" \/ includes k "og:" = true) /\
  k <> "" /\ c <> "".
Proof.
  unfold tag_entry.
  destruct (meta_name tag) as [n|], (getAttribute tag "content") as [c'|];
    try done.
  destruct (truthy_Some_reflect n), (truthy_Some_reflect c'); try done.
  destruct (classify n) as [k'|] eqn:Hcl; [|done]. simpl.
  intros Heq. injection Heq as <- <-.
  destruct (classify_Some _ _ Hcl) as [->|[->|[->|[-> Hog]]]];
    repeat split; auto.
Qed.

Lemma tag_entry_not_synthetic (tag : Node) (k c : string) :
  tag_entry tag = Some (k, c) -> k <> "url" /\ k <> "fetchedAt" /\ k <> "title".
Proof.
  intros H. destruct (tag_entry_key _ _ _ H) as [[->|[->|[->|Hog]]] _];
    try done.
  repeat split; intros ->; vm_compute in Hog; discriminate Hog.
Qed.

Lemma keys_not_synthetic (m : Meta) :
  ("url" ∉ JsObject.keys m) /\ ("fetchedAt" ∉ JsObject.keys m) ->
  forall k v, k <> "url" -> k <> "fetchedAt" ->
  ("url" ∉ JsObject.keys (JsObject.set m k v)) /\
  ("fetchedAt" ∉ JsObject.keys (JsObject.set m k v)).
Proof. intros [? ?] k v ? ?. rewrite !JsObject.keys_set_elem. naive_solver. Qed.

(** [url] and [fetchedAt] are the last two entries of the metadata,
    holding the request's URL and the timestamp, whenever the seed has
    neither (the seeds of [fetchSingleUrl] have only [title] and
    [author], [seed_keys]). *)
Lemma collect_metadata_tail (doc : Document) (url fetchedAt : string) (md : Meta) :
  ("url" ∉ JsObject.keys md) -> ("fetchedAt" ∉ JsObject.keys md) ->
  exists pre,
    collect_metadata doc url fetchedAt md = pre ++ [("url", url); ("fetchedAt", fetchedAt)] /\
    ("url" ∉ JsObject.keys pre) /\ ("fetchedAt" ∉ JsObject.keys pre).
Proof.
  intros Hu Hf. unfold collect_metadata.
  set (md1 := harvest_meta_tags doc (fill_title doc md)).
  assert (("url" ∉ JsObject.keys md1) /\ ("fetchedAt" ∉ JsObject.keys md1)) as [Hu1 Hf1].
  { apply harvest_meta_tags_invariant.
    - apply fill_title_invariant; [done|]. intros v. by apply keys_not_synthetic.
    - intros m k c Hm [tag Htag].
      destruct (tag_entry_not_synthetic _ _ _ Htag) as (? & ? & ?).
      by apply keys_not_synthetic. }
  exists md1. rewrite (JsObject.set_notin md1 "url"); [|done].
  rewrite JsObject.set_notin, <- app_assoc; [done|].
  rewrite JsObject.keys_app. set_solver.
Qed.

Lemma last_entry_none (k : string) (tags : list Node) :
  (forall tag c, tag_entry tag <> Some (k, c)) -> last_entry k tags = None.
Proof.
  intros Hnone. unfold last_entry.
  apply (fold_left_invariant (fun acc => acc = None)); [done|].
  intros acc tag _ ->. destruct (tag_entry tag) as [[k' c]|] eqn:E; [|done].
  case_decide; [subst; by destruct (Hnone tag c)|done].
Qed.

(** No [<meta>] tag writes [title]: a truthy title of the seed stays. *)
Lemma collect_metadata_title (doc : Document) (url fetchedAt t : string) (md : Meta) :
  JsObject.get md "title" = Some t -> t <> "" ->
  JsObject.get (collect_metadata doc url fetchedAt md) "title" = Some t.
Proof.
  intros Ht Hne. unfold collect_metadata.
  rewrite !JsObject.get_set_ne by done.
  unfold harvest_meta_tags. rewrite harvest_fold_get, last_entry_none.
  - unfold fill_title. rewrite Ht. by destruct (truthy_Some_reflect t).
  - intros tag c Htag. apply tag_entry_not_synthetic in Htag. naive_solver.
Qed.

(** C28: the [<meta>] loop never stores an empty key or an empty value:
    entries with a non-empty key and value stay so. *)
Theorem harvest_entries_nonempty (doc : Document) (md : Meta) :
  Forall (fun e => e.1 <> "" /\ e.2 <> "") md ->
  Forall (fun e => e.1 <> "" /\ e.2 <> "") (harvest_meta_tags doc md).
Proof.
  intros H. apply harvest_meta_tags_invariant; [done|].
  intros m k c Hm [tag Htag]. apply JsObject.set_Forall; [done|].
  simpl. apply (tag_entry_key _ _ _ Htag).
Qed.

(** C23: the [<title>] stage, unlike the [<meta>] loop, stores an
    empty value: whenever the seed has no truthy [title] and the first
    [<title>] element's text trims to the empty string (a blank or
    whitespace-only title), the metadata holds [title] with the value
    [""], so the front matter prints [title: ] with nothing after it. *)
Theorem empty_title_entry (doc : Document) (url fetchedAt : string) (md : Meta) (t : Node) :
  truthy (JsObject.get md "title") = false ->
  querySelector doc "title" = Some t -> trim (textContent t) = "" ->
  JsObject.get (collect_metadata doc url fetchedAt md) "title" = Some "".
Proof.
  intros Hmd Ht Htrim. unfold collect_metadata.
  rewrite !JsObject.get_set_ne by done.
  unfold harvest_meta_tags. rewrite harvest_fold_get, last_entry_none.
  - unfold fill_title. rewrite Hmd, Ht, Htrim. apply JsObject.get_set_eq.
  - intros tag c Htag. apply tag_entry_not_synthetic in Htag. naive_solver.
Qed.

Lemma digits_only_app (a b : string) :
  digits_only (a +:+ b) = digits_only a && digits_only b.
Proof.
  induction a as [|c a IH]; [done|].
  rewrite string_app_cons. simpl. rewrite IH. apply andb_assoc.
Qed.

Lemma includes_og_not_digits (n : string) :
  includes n "og:" = true -> all_digits n = false.
Proof.
  rewrite includes_spec. intros (a & b & ->). unfold all_digits.
  rewrite digits_only_app, string_app_cons. simpl.
  rewrite andb_false_r. apply andb_false_r.
Qed.

Lemma seed_keys (a : Extractor.Article) (k : string) :
  k ∈ JsObject.keys (seed_metadata a) -> k = "title" \/ k = "author".
Proof.
  unfold seed_metadata. destruct (Extractor.art_byline a) as [b|];
    [destruct (truthy (Some b))|];
    rewrite ?JsObject.keys_set_elem; simpl; set_solver.
Qed.

(** No property of the metadata is an array index, so
    [Object.entries(metadata)] lists the properties in insertion order,
    the order [JsObject.entries] models. *)
Theorem metadata_keys_not_index (doc : Document) (url fetchedAt : string) (md : Meta) :
  Forall (fun k => all_digits k = false) (JsObject.keys md) ->
  Forall (fun k => all_digits k = false)
         (JsObject.keys (collect_metadata doc url fetchedAt md)).
Proof.
  rewrite !Forall_forall. intros Hmd. unfold collect_metadata.
  pose (P := fun m : Meta => forall k, k ∈ JsObject.keys m -> all_digits k = false).
  assert (Hset : forall m k v, P m -> all_digits k = false -> P (JsObject.set m k v)).
  { intros m k v Hm Hk k'. rewrite JsObject.keys_set_elem. intros [->|?]; auto. }
  apply Hset; [apply Hset|done]; [|done].
  apply harvest_meta_tags_invariant.
  - apply fill_title_invariant; [done|]. intros v. by apply Hset.
  - intros m k c Hm [tag Htag]. apply Hset; [done|].
    destruct (tag_entry_key _ _ _ Htag) as [[->|[->|[->|Hog]]] _]; try done.
    by apply includes_og_not_digits.
Qed.

(** ** Witnesses *)

Definition sample_doc : Document :=
  [Element "head" []
     [Element "title" [] [Text " Hello "];
      Element "meta" [("property", "og:title"); ("content", "Hello!")] [];
      Element "meta" [("name", "description"); ("content", "greeting")] []]].

Definition sample_seed : Meta := [("title", "Article")].

Lemma empty_title_entry_witness :
  JsObject.get (collect_metadata [Element "head" [] [Element "title" [] [Text "   "]]]
                                 "https://example.com/" "T" JsObject.empty) "title" = Some "".
Proof.
  apply (empty_title_entry _ _ _ _ (Element "title" [] [Text "   "])); reflexivity.
Defined.

Lemma harvest_entries_nonempty_witness :
  Forall (fun e => e.1 <> "" /\ e.2 <> "") (harvest_meta_tags sample_doc sample_seed).
Proof.
  apply harvest_entries_nonempty. decide_prop.
Defined.

Lemma metadata_keys_not_index_witness :
  Forall (fun k => all_digits k = false)
         (JsObject.keys (collect_metadata sample_doc "https://example.com/" "T" sample_seed)).
Proof.
  apply metadata_keys_not_index. decide_prop.
Defined.
End MetadataFacts.
