(* ===== verification/Pipeline.v ===== *)
(** * The fetch pipeline: [fetchSingleUrl] (index.js 82-187)

    [fetchSingleUrl(url, includeMetadata, simplify, timeout)] is one
    [try] block followed by a [catch] that turns every exception into
    [{ success: false, error }].  The block is modelled in the monad [M]
    (state [World], exceptions [JsError]) as the sequence of its steps:
    - [axios_get url (request_config timeout)] (85-95): one GET with the
      fixed headers, [maxRedirects: 5] and [validateStatus: s < 400];
    - [convert_page] (96-120): with [simplify], the extractor and the
      conversion of the article's content, or of the whole page when the
      extractor returns [null]; without it, the whole page; with an
      article and [includeMetadata], the seed of [Metadata.seed_metadata];
    - [add_metadata] (122-156): [Metadata.collect_metadata] on the parsed
      page, with the clock's [fetchedAt];
    - [format_content] (158-166): the front matter, then the markdown.
    [error_message] (169-185) is the [catch] block.

    Theorems: the outcome of each branch of the code: an HTTP error
    status ([fetch_http_error]), no response ([fetch_no_response]), a body
    that is not a string ([fetch_non_string_body]), the fallback to the
    whole page ([fetch_whole_page]), the article path
    ([fetch_article_markdown]) and the front matter
    ([fetch_front_matter]).
    What [simplify] changes: when Readability neither finds an article
    nor throws, nothing ([simplify_fallback_equiv]); when it throws, one
    stderr line and nothing else ([readability_failure_logged]).
    The lemma [fetch_requests] (at most one request per call, with the
    fixed configuration) is what the batch theorems of [Tools] build
    on. *)

From stdpp Require Import base list strings sets.
From Stdlib Require Import ZArith.
From S2P Require Import Prelude JsObject Dom Platform Readability Metadata.

Module Pipeline.
Import Extractor Metadata.

Definition user_agent : string :=
  "Mozilla/5.0 (Windows NT 10.0; Win64; x64) AppleWebKit/537.36 (KHTML, like Gecko) Chrome/91.0.4472.124 Safari/537.36 (MCP Fetch Bot)".

Definition request_headers : list (string * string) :=
  [("User-Agent", user_agent);
   ("Accept", "text/html,application/xhtml+xml,application/xml;q=0.9,*/*;q=0.8");
   ("Accept-Language", "en-US,en;q=0.5");
   ("Accept-Encoding", "gzip, deflate, br")].

(** [validateStatus: (status) => status < 400] *)
Definition validateStatus (status : Z) : bool := (status <? 400)%Z.

(** The configuration object passed to [axios.get]. *)
Definition request_config (timeout : Z) : RequestConfig :=
  MkRequestConfig timeout request_headers 5 validateStatus.

Section Run.
Context `{Platform}.

(** Lines 96-120: the markdown body and the metadata seed. *)
Definition convert_page (html : JsVal) (url : string) (includeMetadata simplify : bool)
  : M (string * Meta) :=
  if simplify then
    article ← extractReadableContent (js_String html) url;
    match article with
    | Some a =>
        markdown ← turndown (JStr (art_content a));
        mret (markdown, if includeMetadata then seed_metadata a else JsObject.empty)
    | None =>
        markdown ← turndown html;
        mret (markdown, JsObject.empty)
    end
  else
    markdown ← turndown html;
    mret (markdown, JsObject.empty).

(** Lines 122-156. *)
Definition add_metadata (html : JsVal) (url : string) (includeMetadata : bool) (md : Meta)
  : M Meta :=
  if includeMetadata then
    st_state (fun w => (w, collect_metadata (jsdom_parse (js_String html)) url (now_iso w) md))
  else mret md.
End Run.

(** One line [`${key}: ${value}\n`] of the front matter. *)
Definition front_matter_line (e : string * string) : string :=
  e.1 +:+ ": " +:+ e.2 +:+ nl.

Definition front_matter_lines (entries : list (string * string)) : string :=
  foldr (fun e acc => front_matter_line e +:+ acc) "" entries.

(** Lines 158-166. *)
Definition format_content (includeMetadata : bool) (md : Meta) (markdown : string) : string :=
  (if includeMetadata && bool_decide (0 < length (JsObject.keys md))
   then "---" +:+ nl +:+ front_matter_lines (JsObject.entries md) +:+ "---" +:+ nl +:+ nl
   else "") +:+ markdown.

(** The [catch] block, lines 169-185. *)
Definition error_message (e : JsError) : string :=
  match e with
  | ErrAxios ax =>
      match ax_response ax with
      | Some r => "HTTP " +:+ js_num (status r) +:+ ": " +:+ statusText r
      | None => if ax_request ax then "No response received from server"
                else ax_message ax
      end
  | ErrError m => m
  | ErrValue => "Failed to fetch URL"
  end.

(** [{ success: true, content }] or [{ success: false, error }] *)
Inductive FetchResult : Type :=
| FetchOk (content : string)
| FetchErr (error : string).

Section Fetch.
Context `{Platform}.

(** The [try] block, lines 84-167. *)
Definition fetch_body (url : string) (includeMetadata simplify : bool) (timeout : Z)
  : M string :=
  response ← axios_get url (request_config timeout);
  let html := data response in
  page ← convert_page html url includeMetadata simplify;
  md ← add_metadata html url includeMetadata page.2;
  mret (format_content includeMetadata md page.1).

(** [fetchSingleUrl(url, includeMetadata, simplify, timeout)] *)
Definition fetchSingleUrl (url : string) (includeMetadata simplify : bool) (timeout : Z)
  : World -> World * FetchResult :=
  try_catch (fetch_body url includeMetadata simplify timeout)
            FetchOk (fun e => FetchErr (error_message e)).
End Fetch.
End Pipeline.

Module PipelineFacts.
Import Extractor Metadata MetadataFacts Pipeline.

Lemma validateStatus_true (s : Z) : (s < 400)%Z -> validateStatus s = true.
Proof. intros. unfold validateStatus. by apply Z.ltb_lt. Qed.

Lemma validateStatus_false (s : Z) : (400 <= s)%Z -> validateStatus s = false.
Proof. intros. unfold validateStatus. by apply Z.ltb_ge. Qed.

Lemma front_matter_lines_app (l1 l2 : list (string * string)) :
  front_matter_lines (l1 ++ l2) = front_matter_lines l1 +:+ front_matter_lines l2.
Proof.
  induction l1 as [|e l1 IH]; [done|]. simpl. by rewrite IH, string_app_assoc.
Qed.

(** The front matter of metadata that ends with [url] and [fetchedAt]. *)
Lemma format_content_tail (pre : Meta) (u t markdown : string) :
  format_content true (pre ++ [("url", u); ("fetchedAt", t)]) markdown =
    "---" +:+ nl +:+ front_matter_lines pre +:+ "url: " +:+ u +:+ nl +:+
    "fetchedAt: " +:+ t +:+ nl +:+ "---" +:+ nl +:+ nl +:+ markdown.
Proof.
  unfold format_content. rewrite JsObject.keys_app, length_app. simpl.
  rewrite bool_decide_true by lia. unfold JsObject.entries.
  rewrite front_matter_lines_app. simpl. unfold front_matter_line. simpl.
  rewrite string_app_nil_r, <- !string_app_assoc. reflexivity.
Qed.

Section Facts.
Context `{Platform}.

(** [fetchSingleUrl] as the sequence of its steps. *)
Lemma fetch_run (url : string) (im sm : bool) (timeout : Z) (w : World) :
  fetchSingleUrl url im sm timeout w =
    match run_st (axios_get url (request_config timeout)) w with
    | (w1, inl e) => (w1, FetchErr (error_message e))
    | (w1, inr r) =>
        match run_st (convert_page (data r) url im sm) w1 with
        | (w2, inl e) => (w2, FetchErr (error_message e))
        | (w2, inr (m, md)) =>
            (w2, FetchOk (format_content im
               (if im then collect_metadata (jsdom_parse (js_String (data r))) url
                             (now_iso w2) md
                else md) m))
        end
    end.
Proof.
  unfold fetchSingleUrl, fetch_body. rewrite try_catch_bind.
  destruct (run_st (axios_get _ _) w) as [w1 [e|r]]; [done|].
  rewrite try_catch_bind.
  destruct (run_st (convert_page _ _ _ _) w1) as [w2 [e|[m md]]]; [done|].
  unfold try_catch, add_metadata. destruct im; st_simpl; done.
Qed.

(** An exception of axios ends the pipeline with its message. *)
Lemma fetch_axios_error (url : string) (im sm : bool) (timeout : Z) (w w1 : World)
      (e : JsError) :
  run_st (axios_get url (request_config timeout)) w = (w1, inl e) ->
  fetchSingleUrl url im sm timeout w = (w1, FetchErr (error_message e)).
Proof. intros Hax. by rewrite fetch_run, Hax. Qed.

(** [convert_page] issues no request. *)
Lemma convert_page_requests (html : JsVal) (url : string) (im sm : bool) (w : World) :
  w_requests (fst (run_st (convert_page html url im sm) w)) = w_requests w.
Proof.
  unfold convert_page. destruct sm; [|by destruct html].
  rewrite run_bind.
  destruct (extract_never_throws (js_String html) url w) as (w1 & r & -> & Hw1).
  destruct r as [a|]; [|destruct html]; st_simpl; done.
Qed.

(** The seed [convert_page] passes on has only [title] and [author]. *)
Lemma convert_page_seed (html : JsVal) (url : string) (im sm : bool) (w w' : World)
      (m : string) (md : Meta) :
  run_st (convert_page html url im sm) w = (w', inr (m, md)) ->
  forall k, k ∈ JsObject.keys md -> k = "title" \/ k = "author".
Proof.
  unfold convert_page.
  assert (Hempty : forall k, k ∈ JsObject.keys (V:=string) JsObject.empty ->
                             k = "title" \/ k = "author") by set_solver.
  destruct sm; [|destruct html; st_simpl; intros Heq; simplify_eq; done].
  rewrite run_bind.
  destruct (extract_never_throws (js_String html) url w) as (w1 & r & -> & _).
  destruct r as [a|]; [|destruct html]; st_simpl; intros Heq;
    simplify_eq; [destruct im; [apply seed_keys|]|..]; done.
Qed.

Lemma convert_page_run (html : JsVal) (url : string) (im sm : bool) (w : World) :
  exists w', fst (run_st (convert_page html url im sm) w) = w' /\
             w_requests w' = w_requests w.
Proof. eexists. split; [done|]. apply convert_page_requests. Qed.
End Facts.

Section Outcomes.
Context `{Platform}.

(** C1: a response whose status is 400 or more is a failure whose
    message is [HTTP <status>: <statusText>]; the request was issued
    once and nothing else happened. *)
Theorem fetch_http_error (url : string) (im sm : bool) (timeout : Z) (w : World)
        (r : Response) :
  net url (request_config timeout) (length (w_requests w)) = TResponse r ->
  (400 <= status r)%Z ->
  fetchSingleUrl url im sm timeout w =
    (log_request url (request_config timeout) w,
     FetchErr ("HTTP " +:+ js_num (status r) +:+ ": " +:+ statusText r)).
Proof.
  intros Hnet Hst.
  by rewrite (fetch_axios_error _ _ _ _ _ _ _
                (axios_get_refused _ _ _ r Hnet (validateStatus_false _ Hst))).
Qed.

(** C18: a request that got no response (refused connection, DNS
    failure, timeout) is a failure with the fixed message
    [No response received from server], whatever the transport said. *)
Theorem fetch_no_response (url : string) (im sm : bool) (timeout : Z) (w : World)
        (msg : string) :
  net url (request_config timeout) (length (w_requests w)) = TNoResponse msg ->
  fetchSingleUrl url im sm timeout w =
    (log_request url (request_config timeout) w,
     FetchErr "No response received from server").
Proof.
  intros Hnet. by rewrite (fetch_axios_error _ _ _ _ _ _ _ (axios_get_no_response _ _ _ msg Hnet)).
Qed.

Lemma convert_page_whole (v : JsVal) (url : string) (im sm : bool) (w : World) :
  (sm = false \/ has_article (readability_parse (js_String v) url) = false) ->
  exists w', w_requests w' = w_requests w /\
    run_st (convert_page v url im sm) w = run_st (turndown v ≫= fun m => mret (m, JsObject.empty)) w'.
Proof.
  intros Hsm. unfold convert_page. destruct sm.
  - destruct Hsm as [?|Hno]; [done|]. rewrite run_bind.
    destruct (extract_never_throws (js_String v) url w) as (w1 & r & Hrun & Hw1).
    pose proof (proj2 (extract_none_iff (js_String v) url w) Hno) as Hnone.
    rewrite Hrun in Hnone |- *. simpl in Hnone. injection Hnone as ->. eauto.
  - eauto.
Qed.

(** C25: a body that is not a string (axios parsed it as JSON) makes the
    whole-page conversion throw Turndown's [TypeError]: without
    [simplify], or when the extractor finds no article, the fetch
    fails with that message. *)
Theorem fetch_non_string_body (url : string) (im sm : bool) (timeout : Z) (w : World)
        (r : Response) (shown : string) :
  net url (request_config timeout) (length (w_requests w)) = TResponse r ->
  (status r < 400)%Z -> data r = JOther shown ->
  (sm = false \/ has_article (readability_parse shown url) = false) ->
  exists w', fetchSingleUrl url im sm timeout w =
      (w', FetchErr (shown +:+ " is not a string, or an element/document/fragment node.")) /\
    w_requests w' = w_requests w ++ [(url, request_config timeout)].
Proof.
  intros Hnet Hst Hdata Hsm. rewrite fetch_run.
  rewrite (axios_get_accepted _ _ _ r); [|done|by apply validateStatus_true].
  rewrite Hdata.
  destruct (convert_page_whole (JOther shown) url im sm (log_request url (request_config timeout) w) Hsm)
    as (w' & Hw' & ->).
  exists w'. st_simpl. split; [done|]. by rewrite Hw'.
Qed.

(** C4: without [simplify], or when the extractor returns [null], the
    markdown is the conversion of the whole page: the fetch succeeds
    with it, after the front matter when [includeMetadata] is set. *)
Theorem fetch_whole_page (url : string) (im sm : bool) (timeout : Z) (w : World)
        (r : Response) (html : string) :
  net url (request_config timeout) (length (w_requests w)) = TResponse r ->
  (status r < 400)%Z -> data r = JStr html ->
  (sm = false \/ has_article (readability_parse html url) = false) ->
  exists w' md, fetchSingleUrl url im sm timeout w =
      (w', FetchOk (format_content im md (turndown_html html))) /\
    w_requests w' = w_requests w ++ [(url, request_config timeout)].
Proof.
  intros Hnet Hst Hdata Hsm. rewrite fetch_run.
  rewrite (axios_get_accepted _ _ _ r); [|done|by apply validateStatus_true].
  rewrite Hdata.
  destruct (convert_page_whole (JStr html) url im sm (log_request url (request_config timeout) w) Hsm)
    as (w' & Hw' & ->).
  st_simpl. eexists _, _. split; [done|]. by rewrite Hw'.
Qed.

(** C24: with [simplify] and an article Readability accepts, the
    markdown is the conversion of the article's content, and with
    [includeMetadata] the metadata's [title] is the article's title
    (no [<title>] or [<meta>] tag overrides it). *)
Theorem fetch_article_markdown (url : string) (im : bool) (timeout : Z) (w : World)
        (r : Response) (t c : string) (b : option string) :
  net url (request_config timeout) (length (w_requests w)) = TResponse r ->
  (status r < 400)%Z ->
  readability_parse (js_String (data r)) url = RArticle (Some t) (Some c) b ->
  t <> "" -> c <> "" ->
  exists w' md, fetchSingleUrl url im true timeout w =
      (w', FetchOk (format_content im md (turndown_html c))) /\
    (im = true -> JsObject.get md "title" = Some t).
Proof.
  intros Hnet Hst Hread Ht Hc. rewrite fetch_run.
  rewrite (axios_get_accepted _ _ _ r); [|done|by apply validateStatus_true].
  unfold convert_page. rewrite run_bind, (extract_run_article _ _ t c b); [|done..].
  st_simpl. eexists _, _. split; [done|]. intros ->.
  apply collect_metadata_title; [|done].
  unfold seed_metadata; simpl. destruct (js_or b None) as [b'|]; simpl;
    [destruct (truthy (Some b'))|]; rewrite ?JsObject.get_set_ne by done; done.
Qed.

(** C5: with [includeMetadata], a successful fetch starts with a
    front-matter block whose last two lines are [url: <url>] and
    [fetchedAt: <timestamp>], whatever the page holds. *)
Theorem fetch_front_matter (url : string) (sm : bool) (timeout : Z) (w w' : World)
        (content : string) :
  fetchSingleUrl url true sm timeout w = (w', FetchOk content) ->
  exists pre markdown,
    content = "---" +:+ nl +:+ pre +:+ "url: " +:+ url +:+ nl +:+
              "fetchedAt: " +:+ now_iso w' +:+ nl +:+ "---" +:+ nl +:+ nl +:+ markdown.
Proof.
  rewrite fetch_run.
  destruct (run_st (axios_get _ _) w) as [w1 [e|r]]; [done|].
  destruct (run_st (convert_page _ _ _ _) w1) as [w2 [e|[m md]]] eqn:Hconv; [done|].
  intros Heq. injection Heq as <- <-.
  pose proof (convert_page_seed _ _ _ _ _ _ _ _ Hconv) as Hseed.
  destruct (collect_metadata_tail (jsdom_parse (js_String (data r))) url (now_iso w2) md)
    as (pre & -> & _ & _).
  1-2: intros Hin; destruct (Hseed _ Hin); done.
  rewrite format_content_tail. eauto.
Qed.

(** One call issues at most one HTTP request, with the fixed
    configuration (headers, [maxRedirects: 5], [validateStatus]); the
    request is logged unless axios could not send it. *)
Lemma fetch_requests (url : string) (im sm : bool) (timeout : Z) (w : World) :
  w_requests (fst (fetchSingleUrl url im sm timeout w)) =
    w_requests w ++
    match net url (request_config timeout) (length (w_requests w)) with
    | TNotSent _ => []
    | _ => [(url, request_config timeout)]
    end.
Proof.
  rewrite fetch_run. unfold axios_get; simpl.
  destruct (net url (request_config timeout) (length (w_requests w))) as [r|m|m].
  - destruct (validateStatus (status r)); simpl; [|done].
    pose proof (convert_page_requests (data r) url im sm
                  (log_request url (request_config timeout) w)) as Hreq.
    destruct (run_st (convert_page _ _ _ _) _) as [w2 [e|[m md]]]; simpl in *;
      by rewrite Hreq.
  - done.
  - by rewrite app_nil_r.
Qed.
(** C12: the fallback of lines 112-120 is the plain conversion: when
    Readability neither finds an article nor throws for the page's URL,
    a fetch with [simplify] is exactly the fetch without it (same world,
    same result, metadata included). *)
Theorem simplify_fallback_equiv (url : string) (im : bool) (timeout : Z) (w : World) :
  (forall html, has_article (readability_parse html url) = false) ->
  (forall html m, readability_parse html url <> RThrow m) ->
  fetchSingleUrl url im true timeout w = fetchSingleUrl url im false timeout w.
Proof.
  intros Hno Hthrow. rewrite !fetch_run.
  destruct (run_st (axios_get _ _) w) as [w1 [e|r]]; [done|].
  unfold convert_page. rewrite run_bind.
  by rewrite extract_run_none.
Qed.

(** C19: a Readability exception is caught, logged and forgotten: the
    fetch with [simplify] has the result and the request log of the
    fetch without it, and one more stderr line,
    [Readability extraction failed: <message>], exactly when the page
    was fetched (given a clock that does not read stderr). *)
Theorem readability_failure_logged (url : string) (im : bool) (timeout : Z) (w : World)
        (msg : string) :
  (forall html, readability_parse html url = RThrow msg) ->
  (forall l w', now_iso (log_error l w') = now_iso w') ->
  let '(w1, r1) := fetchSingleUrl url im true timeout w in
  let '(w2, r2) := fetchSingleUrl url im false timeout w in
  r1 = r2 /\ w_requests w1 = w_requests w2 /\
  w_stderr w1 = w_stderr w2 ++
    match snd (run_st (axios_get url (request_config timeout)) w) with
    | inr _ => ["Readability extraction failed: " +:+ msg]
    | inl _ => []
    end.
Proof.
  intros Hthrow Hclock. rewrite !fetch_run.
  destruct (run_st (axios_get _ _) w) as [w1 [e|r]]; [simpl; by rewrite app_nil_r|].
  unfold convert_page. rewrite run_bind.
  unfold extractReadableContent. rewrite Hthrow. st_simpl.
  destruct (data r) as [html|shown]; st_simpl; simpl; [|done].
  by rewrite Hclock.
Qed.
End Outcomes.

(** A page with a title, one [author] meta tag, and no article
    Readability accepts (the specification's example page). *)
Definition example_page : Dom.Document :=
  [Dom.Element "html" []
     [Dom.Element "head" []
        [Dom.Element "title" [] [Dom.Text "Hello"];
         Dom.Element "meta" [("name", "author"); ("content", "Jane")] []];
      Dom.Element "body" [] [Dom.Element "p" [] [Dom.Text "Hi"]]]].

Definition example_site : Platform :=
  static_site (TResponse (MkResponse 200 "OK" (JStr "Hi")))
              example_page RNull echo_lib.

(** ** Witnesses *)

Definition site (answer : Transport) (read : ReadResult) : Platform :=
  static_site answer example_page read echo_lib.

Definition w0 : World := MkWorld [] [].

Lemma fetch_http_error_witness :
  fetchSingleUrl (H:=site (TResponse (MkResponse 404 "Not Found" (JStr "<h1>gone</h1>"))) RNull)
    "https://example.com/a" false true 30000 w0 =
    (log_request "https://example.com/a" (request_config 30000) w0,
     FetchErr ("HTTP " +:+ js_num 404 +:+ ": " +:+ "Not Found")).
Proof.
  apply (fetch_http_error "https://example.com/a" false true 30000 w0
           (MkResponse 404 "Not Found" (JStr "<h1>gone</h1>"))); [reflexivity|simpl; lia].
Defined.

Lemma fetch_no_response_witness :
  fetchSingleUrl (H:=site (TNoResponse "timeout of 30000ms exceeded") RNull)
    "https://example.com/a" false true 30000 w0 =
    (log_request "https://example.com/a" (request_config 30000) w0,
     FetchErr "No response received from server").
Proof.
  apply (fetch_no_response "https://example.com/a" false true 30000 w0
           "timeout of 30000ms exceeded"). reflexivity.
Defined.

Lemma fetch_non_string_body_witness :
  exists w', fetchSingleUrl (H:=site (TResponse (MkResponse 200 "OK" (JOther "[object Object]"))) RNull)
      "https://example.com/data.json" false false 30000 w0 =
      (w', FetchErr ("[object Object]" +:+ " is not a string, or an element/document/fragment node.")) /\
    w_requests w' = w_requests w0 ++ [("https://example.com/data.json", request_config 30000)].
Proof.
  apply (fetch_non_string_body "https://example.com/data.json" false false 30000 w0
           (MkResponse 200 "OK" (JOther "[object Object]")) "[object Object]");
    [reflexivity|simpl; lia|reflexivity|left; reflexivity].
Defined.

Lemma fetch_whole_page_witness :
  exists w' md, fetchSingleUrl (H:=site (TResponse (MkResponse 200 "OK" (JStr "<p>Hi</p>"))) RNull)
      "https://example.com/a" false true 30000 w0 =
      (w', FetchOk (format_content false md "<p>Hi</p>")) /\
    w_requests w' = w_requests w0 ++ [("https://example.com/a", request_config 30000)].
Proof.
  apply (fetch_whole_page (H:=site (TResponse (MkResponse 200 "OK" (JStr "<p>Hi</p>"))) RNull)
           "https://example.com/a" false true 30000 w0
           (MkResponse 200 "OK" (JStr "<p>Hi</p>")) "<p>Hi</p>");
    [reflexivity|simpl; lia|reflexivity|right; reflexivity].
Defined.

Lemma fetch_article_markdown_witness :
  exists w' md,
    fetchSingleUrl (H:=site (TResponse (MkResponse 200 "OK" (JStr "<article/>")))
                          (RArticle (Some "Title") (Some "<p>Body</p>") None))
      "https://example.com/a" true true 30000 w0 =
      (w', FetchOk (format_content true md "<p>Body</p>")) /\
    (true = true -> JsObject.get md "title" = Some "Title").
Proof.
  apply (fetch_article_markdown (H:=site (TResponse (MkResponse 200 "OK" (JStr "<article/>")))
                          (RArticle (Some "Title") (Some "<p>Body</p>") None))
           "https://example.com/a" true 30000 w0
           (MkResponse 200 "OK" (JStr "<article/>")) "Title" "<p>Body</p>" None);
    [reflexivity|simpl; lia|reflexivity|discriminate|discriminate].
Defined.

Lemma fetch_front_matter_witness :
  let run := fetchSingleUrl (H:=example_site) "https://example.com/a" true true 30000 w0 in
  exists pre markdown,
    match snd run with FetchOk c => c | FetchErr _ => "" end =
      "---" +:+ nl +:+ pre +:+ "url: " +:+ "https://example.com/a" +:+ nl +:+
      "fetchedAt: " +:+ now_iso (Platform:=example_site) (fst run) +:+ nl +:+
      "---" +:+ nl +:+ nl +:+ markdown.
Proof.
  intros run.
  apply (fetch_front_matter (H:=example_site) "https://example.com/a" true 30000 w0 (fst run)).
  vm_compute. reflexivity.
Defined.

(** A page that Readability finds nothing in, and one it throws on. *)
Definition hi_page : Transport := TResponse (MkResponse 200 "OK" (JStr "<p>Hi</p>")).

Lemma simplify_fallback_equiv_witness :
  fetchSingleUrl (H:=site hi_page RNull) "https://a.example/" true true 30000 w0 =
  fetchSingleUrl (H:=site hi_page RNull) "https://a.example/" true false 30000 w0.
Proof.
  apply (simplify_fallback_equiv (H:=site hi_page RNull)); [reflexivity|discriminate].
Defined.

Lemma readability_failure_logged_witness :
  let '(w1, r1) :=
    fetchSingleUrl (H:=site hi_page (RThrow "boom")) "https://a.example/" false true 30000 w0 in
  let '(w2, r2) :=
    fetchSingleUrl (H:=site hi_page (RThrow "boom")) "https://a.example/" false false 30000 w0 in
  r1 = r2 /\ w_requests w1 = w_requests w2 /\
  w_stderr w1 = w_stderr w2 ++
    match snd (run_st (axios_get (H:=site hi_page (RThrow "boom")) "https://a.example/"
                         (request_config 30000)) w0) with
    | inr _ => ["Readability extraction failed: " +:+ "boom"]
    | inl _ => []
    end.
Proof. apply (readability_failure_logged (H:=site hi_page (RThrow "boom"))); reflexivity. Defined.
End PipelineFacts.
