(* ===== verification/Tools.v ===== *)
(** * The two MCP tools (index.js 52-80 and 189-233)

    [server.tool(name, schema, handler)] registers a tool; the MCP SDK
    validates the call's arguments against the zod schema and runs the
    handler only when they pass.
    - [Json] is a JSON argument value; an arguments object is a
      [JsObject.t Json] (JSON.parse keeps one value per key).
    - [fetch_url_schema] / [fetch_urls_schema] (53-56, 190-193): [url] a
      string that [valid_url] accepts (zod's [.url()]), each optional
      argument of its type or absent, absent ones replaced by their
      defaults ([false], [true], [30000]).
    - [fetch_url_handler] (57-80): success only when the pipeline
      succeeded with truthy (non-empty) content; otherwise the error text
      [Error fetching <url>: <error || 'Unknown error'>] with [isError].
    - [fetch_all] (195-212): the sequential [for ... of] loop, one
      [fetchSingleUrl] per URL in order, each in the world the previous
      one left; [render_report] (214-224) the markdown report;
      [fetch_urls_handler] (194-233) both, never flagged as an error.
    - [call_tool]: the SDK's dispatch of a [tools/call] request (the
      [McpServer] library, not code of this repository): an argument
      object the schema refuses, and a name no [server.tool] registered,
      are answered with an invalid-params error before any handler runs.

    Theorems: order and count of the batch outcomes
    ([fetch_all_urls]), the loop as a refinement of the sequential
    specification [batch_steps] ([fetch_all_steps]), the request log of a
    batch ([fetch_all_requests]), the report's text
    ([fetch_urls_report]), validation before any request
    ([call_tool_invalid_url], [call_tool_batch_invalid]), the schema
    defaults ([fetch_url_schema_defaults]), the unchecked timeout
    ([fetch_url_schema_timeout]), the error text of [fetch_url] on an
    HTTP error ([fetch_url_http_error]) and the empty page reported as an
    error ([fetch_url_empty_page]). *)

From stdpp Require Import base list strings sets.
From Stdlib Require Import ZArith.
From S2P Require Import Prelude JsObject Dom Platform Readability Metadata Pipeline.

Module Tools.
Import Pipeline.

#[warnings="-register-all"]
Inductive Json : Type :=
| JNull
| JBool (b : bool)
| JNum (n : Z)
| JString (s : string)
| JArray (items : list Json)
| JObject (fields : list (string * Json)).

Record FetchArgs : Type := MkFetchArgs {
  arg_url : string;
  arg_includeMetadata : bool;
  arg_simplify : bool;
  arg_timeout : Z
}.

Record BatchArgs : Type := MkBatchArgs {
  arg_urls : list string;
  batch_includeMetadata : bool;
  batch_simplify : bool;
  batch_timeout : Z
}.

(** [{ content: [{ type: "text", text }], isError }] *)
Record ToolResponse : Type := MkToolResponse {
  tr_text : string;
  tr_isError : bool
}.

(** [z.boolean().optional().default(d)] *)
Definition zod_opt_bool (d : bool) (v : option Json) : option bool :=
  match v with
  | None => Some d
  | Some (JBool b) => Some b
  | Some _ => None
  end.

(** [z.number().optional().default(d)] *)
Definition zod_opt_number (d : Z) (v : option Json) : option Z :=
  match v with
  | None => Some d
  | Some (JNum n) => Some n
  | Some _ => None
  end.

Section Schemas.
Context `{Platform}.

(** [z.string().url()] *)
Definition zod_url (v : option Json) : option string :=
  match v with
  | Some (JString s) => if valid_url s then Some s else None
  | _ => None
  end.

(** [z.array(z.string().url())] *)
Definition zod_url_array (v : option Json) : option (list string) :=
  match v with
  | Some (JArray items) => mapM (fun j => zod_url (Some j)) items
  | _ => None
  end.

Definition fetch_url_schema (args : JsObject.t Json) : option FetchArgs :=
  url ← zod_url (JsObject.get args "url");
  im ← zod_opt_bool false (JsObject.get args "includeMetadata");
  sm ← zod_opt_bool true (JsObject.get args "simplify");
  t ← zod_opt_number 30000 (JsObject.get args "timeout");
  Some (MkFetchArgs url im sm t).

Definition fetch_urls_schema (args : JsObject.t Json) : option BatchArgs :=
  urls ← zod_url_array (JsObject.get args "urls");
  im ← zod_opt_bool false (JsObject.get args "includeMetadata");
  sm ← zod_opt_bool true (JsObject.get args "simplify");
  t ← zod_opt_number 30000 (JsObject.get args "timeout");
  Some (MkBatchArgs urls im sm t).
End Schemas.

(** [{ url, success, content }] or [{ url, success: false, error }] *)
Record BatchItem : Type := MkBatchItem {
  bi_url : string;
  bi_result : FetchResult
}.

(** One section of the report, lines 216-223. *)
Definition render_item (it : BatchItem) : string :=
  "## " +:+ bi_url it +:+ nl +:+ nl +:+
  match bi_result it with
  | FetchOk c => c +:+ nl +:+ nl
  | FetchErr e => "**Error:** " +:+ e +:+ nl +:+ nl
  end +:+
  "---" +:+ nl +:+ nl.

(** Lines 214-224. *)
Definition render_report (items : list BatchItem) : string :=
  "# Batch Fetch Results" +:+ nl +:+ nl +:+
  foldr (fun it acc => render_item it +:+ acc) "" items.

Section Handlers.
Context `{Platform}.

(** The handler of [fetch_url], lines 57-80. *)
Definition fetch_url_handler (a : FetchArgs) (w : World) : World * ToolResponse :=
  let '(w', result) :=
    fetchSingleUrl (arg_url a) (arg_includeMetadata a) (arg_simplify a) (arg_timeout a) w in
  match result with
  | FetchOk c =>
      if truthy (Some c) then (w', MkToolResponse c false)
      else (w', MkToolResponse ("Error fetching " +:+ arg_url a +:+ ": " +:+ "Unknown error") true)
  | FetchErr e =>
      (w', MkToolResponse ("Error fetching " +:+ arg_url a +:+ ": " +:+
                           (if truthy (Some e) then e else "Unknown error")) true)
  end.

(** The loop of lines 195-212. *)
Fixpoint fetch_all (urls : list string) (im sm : bool) (timeout : Z) (w : World)
  : World * list BatchItem :=
  match urls with
  | [] => (w, [])
  | url :: urls' =>
      let '(w1, result) := fetchSingleUrl url im sm timeout w in
      let '(w2, items) := fetch_all urls' im sm timeout w1 in
      (w2, MkBatchItem url result :: items)
  end.

(** The handler of [fetch_urls], lines 194-233. *)
Definition fetch_urls_handler (a : BatchArgs) (w : World) : World * ToolResponse :=
  let '(w', items) :=
    fetch_all (arg_urls a) (batch_includeMetadata a) (batch_simplify a) (batch_timeout a) w in
  (w', MkToolResponse (render_report items) false).

(** The answer to a [tools/call] request. *)
Inductive CallOutcome : Type :=
| InvalidParams
| Responded (r : ToolResponse).

(** [server.tool("fetch_url", ...)] and [server.tool("fetch_urls", ...)]
    as the SDK's [tools/call] handler dispatches them: the registered
    tool of that name, its arguments parsed by its zod schema, the
    handler run only on a successful parse; an unregistered name and a
    failed parse are both answered with an [InvalidParams] error
    ([McpServer] throws [McpError(ErrorCode.InvalidParams, ..)]). *)
Definition call_tool (name : string) (args : JsObject.t Json) (w : World)
  : World * CallOutcome :=
  if decide (name = "fetch_url") then
    match fetch_url_schema args with
    | Some a => let '(w', r) := fetch_url_handler a w in (w', Responded r)
    | None => (w, InvalidParams)
    end
  else if decide (name = "fetch_urls") then
    match fetch_urls_schema args with
    | Some a => let '(w', r) := fetch_urls_handler a w in (w', Responded r)
    | None => (w, InvalidParams)
    end
  else (w, InvalidParams).
End Handlers.
End Tools.

Module ToolsFacts.
Import Pipeline PipelineFacts Tools.

(** The abstract specification of the batch: a sequence of
    [fetchSingleUrl] steps, one per URL in input order, each in the
    world the previous step left. *)
Inductive batch_steps `{Platform} (im sm : bool) (timeout : Z)
  : World -> list string -> World -> list BatchItem -> Prop :=
| batch_nil w : batch_steps im sm timeout w [] w []
| batch_cons w url urls w1 result w2 items :
    fetchSingleUrl url im sm timeout w = (w1, result) ->
    batch_steps im sm timeout w1 urls w2 items ->
    batch_steps im sm timeout w (url :: urls) w2 (MkBatchItem url result :: items).

Section Facts.
Context `{Platform}.

Lemma fetch_all_sound (urls : list string) (im sm : bool) (timeout : Z)
      (w w' : World) (items : list BatchItem) :
  fetch_all urls im sm timeout w = (w', items) ->
  batch_steps im sm timeout w urls w' items.
Proof.
  revert w w' items. induction urls as [|u us IH]; intros w w' items; simpl.
  - intros Heq. injection Heq as <- <-. constructor.
  - destruct (fetchSingleUrl u im sm timeout w) as [w1 r] eqn:E1.
    destruct (fetch_all us im sm timeout w1) as [w2 its] eqn:E2.
    intros Heq. injection Heq as <- <-. econstructor; eauto.
Qed.

(** C3: the loop of [fetch_urls] refines the sequential specification:
    its runs are exactly those of [batch_steps], so every URL is
    fetched once, in input order, in the world the previous fetches
    left, whatever their outcomes. *)
Theorem fetch_all_steps (urls : list string) (im sm : bool) (timeout : Z)
        (w w' : World) (items : list BatchItem) :
  fetch_all urls im sm timeout w = (w', items) <->
  batch_steps im sm timeout w urls w' items.
Proof.
  split; [apply fetch_all_sound|].
  induction 1 as [|w u us w1 r w2 its E1 _ IH]; simpl; [done|].
  by rewrite E1, IH.
Qed.

(** A sequential run has one item per URL, in order. *)
Lemma batch_steps_urls (im sm : bool) (timeout : Z) (w w' : World) (urls : list string)
      (items : list BatchItem) :
  batch_steps im sm timeout w urls w' items -> map bi_url items = urls.
Proof. induction 1; simpl; congruence. Qed.

(** C2: the batch has one outcome per URL, in input order. *)
Theorem fetch_all_urls (urls : list string) (im sm : bool) (timeout : Z) (w : World) :
  map bi_url (snd (fetch_all urls im sm timeout w)) = urls.
Proof.
  destruct (fetch_all urls im sm timeout w) as [w' items] eqn:E.
  apply fetch_all_sound, batch_steps_urls in E. exact E.
Qed.

(** C17: when axios can send every request, a batch issues exactly one
    request per URL, in input order, with the same configuration. *)
Theorem fetch_all_requests (urls : list string) (im sm : bool) (timeout : Z) (w : World) :
  (forall u cfg n m, net u cfg n <> TNotSent m) ->
  w_requests (fst (fetch_all urls im sm timeout w)) =
    w_requests w ++ map (fun u => (u, request_config timeout)) urls.
Proof.
  intros Hsent.
  destruct (fetch_all urls im sm timeout w) as [w' items] eqn:E.
  apply fetch_all_sound in E. simpl.
  induction E as [w|w u us w1 r w2 its E1 _ IH]; simpl; [by rewrite app_nil_r|].
  rewrite IH. pose proof (fetch_requests u im sm timeout w) as Hreq.
  rewrite E1 in Hreq. simpl in Hreq. rewrite Hreq, <- app_assoc.
  destruct (net u _ _) eqn:En; [done|done|by destruct (Hsent _ _ _ _ En)].
Qed.

(** C27: [fetch_urls] never answers with an error, and its text is the
    report of lines 213-224 written out: the heading, then for each URL
    in input order, with the outcome of its fetch, a section
    [## <url>], a blank line, the content or [**Error:** <message>], a
    blank line and [---]. *)
Theorem fetch_urls_report (a : BatchArgs) (w : World) :
  let '(w', resp) := fetch_urls_handler a w in
  tr_isError resp = false /\
  tr_text resp = "# Batch Fetch Results" +:+ nl +:+ nl +:+
    foldr (fun '(u, r) acc =>
             "## " +:+ u +:+ nl +:+ nl +:+
             (match r with
              | FetchOk c => c +:+ nl +:+ nl
              | FetchErr e => "**Error:** " +:+ e +:+ nl +:+ nl
              end) +:+
             "---" +:+ nl +:+ nl +:+ acc) ""
      (zip (arg_urls a)
           (bi_result <$> (fetch_all (arg_urls a) (batch_includeMetadata a) (batch_simplify a)
                                     (batch_timeout a) w).2)).
Proof.
  unfold fetch_urls_handler.
  destruct (fetch_all _ _ _ _ w) as [w' items] eqn:E.
  apply fetch_all_sound, batch_steps_urls in E as Hurls. simpl.
  split; [done|]. rewrite <- Hurls. unfold render_report. do 3 f_equal.
  clear. induction items as [|[u r] items IH]; [done|]. cbn [foldr fmap list_fmap map zip zip_with].
  rewrite IH. unfold render_item. cbn [bi_url bi_result]. by rewrite <- !string_app_assoc.
Qed.

(** C16: a URL is validated before any network activity: a [fetch_url]
    call whose [url] the URL check refuses is answered with an
    invalid-params error and leaves the world (the request log)
    unchanged. *)
Theorem call_tool_invalid_url (args : JsObject.t Json) (s : string) (w : World) :
  JsObject.get args "url" = Some (JString s) -> valid_url s = false ->
  call_tool "fetch_url" args w = (w, InvalidParams).
Proof.
  intros Hg Hv. unfold call_tool. rewrite decide_True by done.
  unfold fetch_url_schema. rewrite Hg. simpl. by rewrite Hv.
Qed.

(** C29: one malformed URL in a [fetch_urls] call rejects the whole
    batch before any request: no URL of it is fetched. *)
Theorem call_tool_batch_invalid (args : JsObject.t Json) (items : list Json) (s : string)
        (w : World) :
  JsObject.get args "urls" = Some (JArray items) -> JString s ∈ items ->
  valid_url s = false ->
  call_tool "fetch_urls" args w = (w, InvalidParams).
Proof.
  intros Hg Hin Hv. unfold call_tool.
  rewrite decide_False by done. rewrite decide_True by done.
  unfold fetch_urls_schema, zod_url_array. rewrite Hg.
  rewrite (proj2 (mapM_None _ _)); [done|].
  apply Exists_exists. exists (JString s). split; [done|].
  simpl. by rewrite Hv.
Qed.

(** The schema's defaults: a [fetch_url] call with only a valid
    [url] runs with [includeMetadata = false], [simplify = true] and a
    timeout of 30000 ms. *)
Theorem fetch_url_schema_defaults (url : string) :
  valid_url url = true ->
  fetch_url_schema [("url", JString url)] = Some (MkFetchArgs url false true 30000).
Proof. intros Hv. unfold fetch_url_schema. simpl. by rewrite Hv. Qed.

(** C30: the timeout is not range-checked: any number, zero or negative
    included, passes the schema and reaches axios. *)
Theorem fetch_url_schema_timeout (url : string) (n : Z) :
  valid_url url = true ->
  fetch_url_schema [("url", JString url); ("timeout", JNum n)] =
    Some (MkFetchArgs url false true n).
Proof. intros Hv. unfold fetch_url_schema. simpl. by rewrite Hv. Qed.

Lemma fetch_url_handler_run (a : FetchArgs) (w : World) :
  fetch_url_handler a w =
    let '(w', result) := fetchSingleUrl (arg_url a) (arg_includeMetadata a)
                           (arg_simplify a) (arg_timeout a) w in
    (w', match result with
         | FetchOk c => if truthy (Some c) then MkToolResponse c false
                        else MkToolResponse ("Error fetching " +:+ arg_url a +:+ ": " +:+
                                             "Unknown error") true
         | FetchErr e => MkToolResponse ("Error fetching " +:+ arg_url a +:+ ": " +:+
                           (if truthy (Some e) then e else "Unknown error")) true
         end).
Proof.
  unfold fetch_url_handler.
  destruct (fetchSingleUrl _ _ _ _ w) as [w' [c|e]]; [|done].
  by destruct (truthy (Some c)).
Qed.

(** C26: end to end, a [fetch_url] of a page answered with a status of
    400 or more is flagged as an error whose text is
    [Error fetching <url>: HTTP <status>: <statusText>]. *)
Theorem fetch_url_http_error (a : FetchArgs) (w : World) (r : Response) :
  net (arg_url a) (request_config (arg_timeout a)) (length (w_requests w)) = TResponse r ->
  (400 <= status r)%Z ->
  fetch_url_handler a w =
    (log_request (arg_url a) (request_config (arg_timeout a)) w,
     MkToolResponse ("Error fetching " +:+ arg_url a +:+ ": " +:+
                     "HTTP " +:+ js_num (status r) +:+ ": " +:+ statusText r) true).
Proof.
  intros Hnet Hst. rewrite fetch_url_handler_run.
  rewrite (fetch_axios_error _ _ _ _ _ _ _ (axios_get_refused _ _ _ r Hnet
                                             (validateStatus_false _ Hst))).
  destruct (truthy_Some_reflect ("HTTP " +:+ js_num (status r) +:+ ": " +:+ statusText r))
    as [_|Hne]; [done|].
  exfalso. apply Hne. rewrite string_app_cons. discriminate.
Qed.

(** C22: a fetch that succeeds with empty content (a page whose markdown
    is empty, without metadata) is reported by [fetch_url] as a
    failure with the text [Error fetching <url>: Unknown error]. *)
Theorem fetch_url_empty_page (a : FetchArgs) (w w' : World) :
  fetchSingleUrl (arg_url a) (arg_includeMetadata a) (arg_simplify a) (arg_timeout a) w =
    (w', FetchOk "") ->
  fetch_url_handler a w =
    (w', MkToolResponse ("Error fetching " +:+ arg_url a +:+ ": " +:+ "Unknown error") true).
Proof. intros Hf. by rewrite fetch_url_handler_run, Hf. Qed.
End Facts.

(** ** Witnesses *)

Definition ok_site : Platform :=
  static_site (TResponse (MkResponse 200 "OK" (JStr "<p>Hi</p>"))) [] RNull echo_lib.

Definition gone_site : Platform :=
  static_site (TResponse (MkResponse 404 "Not Found" (JStr ""))) [] RNull echo_lib.

Definition empty_site : Platform :=
  static_site (TResponse (MkResponse 200 "OK" (JStr ""))) [] RNull echo_lib.

Definition w_start : World := MkWorld [] [].

Lemma fetch_all_requests_witness :
  w_requests (fst (fetch_all (H:=ok_site) ["https://a.example/"; "https://b.example/"]
                             false true 30000 w_start)) =
    w_requests w_start ++ map (fun u => (u, request_config 30000))
                         ["https://a.example/"; "https://b.example/"].
Proof.
  apply (fetch_all_requests (H:=ok_site)). intros u cfg n m. simpl. discriminate.
Defined.

Lemma call_tool_invalid_url_witness :
  call_tool (H:=ok_site) "fetch_url" [("url", JString "not a url")] w_start = (w_start, InvalidParams).
Proof. apply (call_tool_invalid_url (H:=ok_site) _ "not a url"); reflexivity. Defined.

Lemma call_tool_batch_invalid_witness :
  call_tool (H:=ok_site) "fetch_urls"
    [("urls", JArray [JString "https://a.example/"; JString "ftp.bad"])] w_start = (w_start, InvalidParams).
Proof.
  apply (call_tool_batch_invalid (H:=ok_site) _
           [JString "https://a.example/"; JString "ftp.bad"] "ftp.bad");
    [reflexivity| |reflexivity].
  apply list_elem_of_In. simpl. right. left. reflexivity.
Defined.

Lemma fetch_url_schema_defaults_witness :
  fetch_url_schema (H:=ok_site) [("url", JString "https://example.com/")] =
    Some (MkFetchArgs "https://example.com/" false true 30000).
Proof. apply (fetch_url_schema_defaults (H:=ok_site)). reflexivity. Defined.

Lemma fetch_url_schema_timeout_witness :
  fetch_url_schema (H:=ok_site) [("url", JString "https://example.com/"); ("timeout", JNum (-1))] =
    Some (MkFetchArgs "https://example.com/" false true (-1)).
Proof. apply (fetch_url_schema_timeout (H:=ok_site)). reflexivity. Defined.

Lemma fetch_url_http_error_witness :
  fetch_url_handler (H:=gone_site) (MkFetchArgs "https://example.com/x" false true 30000) w_start =
    (log_request "https://example.com/x" (request_config 30000) w_start,
     MkToolResponse ("Error fetching " +:+ "https://example.com/x" +:+ ": " +:+
                     "HTTP " +:+ js_num 404 +:+ ": " +:+ "Not Found") true).
Proof.
  apply (fetch_url_http_error (H:=gone_site) (MkFetchArgs "https://example.com/x" false true 30000)
           w_start (MkResponse 404 "Not Found" (JStr ""))); [reflexivity|simpl; lia].
Defined.

Lemma fetch_url_empty_page_witness :
  fetch_url_handler (H:=empty_site) (MkFetchArgs "https://example.com/empty" false false 30000) w_start =
    (log_request "https://example.com/empty" (request_config 30000) w_start,
     MkToolResponse ("Error fetching " +:+ "https://example.com/empty" +:+ ": " +:+
                     "Unknown error") true).
Proof.
  apply (fetch_url_empty_page (H:=empty_site)). vm_compute. reflexivity.
Defined.
End ToolsFacts.
