(* ===== verification/BatchLoop.v ===== *)
(** * The loops of [fetch_urls] as the code runs them (index.js 194-233)

    [Tools.fetch_all] is the batch as a structural recursion, the form
    the batch theorems of [Tools] use.  The handler itself is two
    imperative loops over a mutable array:
    - lines 196-211: [for (const url of urls)] awaits [fetchSingleUrl]
      and [results.push(..)]es one object per URL, success or failure;
    - lines 214-224: [for (const result of results)] appends one section
      per result to [output] ([output += ..]).
    This file models them as written:
    - [LoopState]: the URLs the [for ... of] has not reached yet, the
      array [results], and the world;
    - [loop_step]: one iteration (the executable step), [step] its step
      relation, [loop_run] the loop with an iteration bound;
    - [render_loop]: the second loop, a left fold over [results];
    - [fetch_urls_loop]: the handler of lines 194-233 built from them.

    Theorems: every URL of the input eventually has its result at its
    own index of [results], and keeps it ([loop_serves_every_url]).  The
    lemma [fetch_urls_loop_refines] shows the handler as written is
    [Tools.fetch_urls_handler], so the batch theorems of [Tools] are
    about the code's loops. *)

From stdpp Require Import base list strings relations.
From Stdlib Require Import ZArith.
From S2P Require Import Prelude JsObject Platform Pipeline Tools.

Module BatchLoop.
Import Pipeline Tools.

Record LoopState : Type := MkLoop {
  ls_pending : list string;
  ls_results : list BatchItem;
  ls_world : World
}.

Section Loop.
Context `{Platform}.
Variables (im sm : bool) (timeout : Z).

(** One iteration of lines 196-211: fetch the next URL, push its
    outcome (both branches of the [if] push the URL with the result). *)
Definition loop_step (s : LoopState) : option LoopState :=
  match ls_pending s with
  | [] => None
  | url :: urls =>
      let '(w', result) := fetchSingleUrl url im sm timeout (ls_world s) in
      Some (MkLoop urls (ls_results s ++ [MkBatchItem url result]) w')
  end.

(** The loop's transitions. *)
Inductive step : LoopState -> LoopState -> Prop :=
| step_iter s s' : loop_step s = Some s' -> step s s'.

(** The loop for at most [fuel] iterations. *)
Fixpoint loop_run (fuel : nat) (s : LoopState) : LoopState :=
  match fuel with
  | 0 => s
  | S fuel' => match loop_step s with Some s' => loop_run fuel' s' | None => s end
  end.
End Loop.

(** Line 195: [const results = []] before the loop. *)
Definition loop_init (urls : list string) (w : World) : LoopState := MkLoop urls [] w.

(** Lines 214-224: [let output = '# Batch Fetch Results\n\n'] and one
    [output += ..] per result. *)
Definition render_loop (results : list BatchItem) : string :=
  fold_left (fun output it => output +:+ render_item it) results
            ("# Batch Fetch Results" +:+ nl +:+ nl).

(** The handler of lines 194-233: a [for ... of] visits each URL once,
    so the loop runs [urls.length] iterations. *)
Definition fetch_urls_loop `{Platform} (a : BatchArgs) (w : World) : World * ToolResponse :=
  let s := loop_run (batch_includeMetadata a) (batch_simplify a) (batch_timeout a)
                    (length (arg_urls a)) (loop_init (arg_urls a) w) in
  (ls_world s, MkToolResponse (render_loop (ls_results s)) false).
End BatchLoop.

Module BatchLoopFacts.
Import Pipeline Tools BatchLoop.

Section Steps.
Context `{Platform}.
Variables (im sm : bool) (timeout : Z).
Local Abbreviation step := (step im sm timeout).
Local Abbreviation loop_run := (loop_run im sm timeout).

Lemma step_iff (s s' : LoopState) : step s s' <-> loop_step im sm timeout s = Some s'.
Proof. split; [by inversion 1|by constructor]. Qed.

Lemma step_inv (s s' : LoopState) :
  step s s' ->
  exists url r, ls_pending s = url :: ls_pending s' /\
    fetchSingleUrl url im sm timeout (ls_world s) = (ls_world s', r) /\
    ls_results s' = ls_results s ++ [MkBatchItem url r].
Proof.
  rewrite step_iff. intros Hs. destruct s as [[|u us] res w]; [done|].
  unfold BatchLoop.loop_step in Hs. cbn [ls_pending ls_world ls_results] in Hs.
  destruct (fetchSingleUrl u im sm timeout w) as [w' r] eqn:E.
  injection Hs as <-. simpl. eauto.
Qed.

(** The bookkeeping invariant: the URLs of [results], then the pending
    ones, are the input, and [results] only grows at its end. *)
Lemma nsteps_results (n : nat) (s s' : LoopState) :
  nsteps step n s s' ->
  map bi_url (ls_results s') ++ ls_pending s' = map bi_url (ls_results s) ++ ls_pending s /\
  length (ls_results s') = length (ls_results s) + n /\
  ls_results s `prefix_of` ls_results s'.
Proof.
  induction 1 as [s|n s1 s2 s3 H12 _ (IH1 & IH2 & IH3)]; [split_and!; [done|lia|done]|].
  destruct (step_inv _ _ H12) as (u & r & Hp & _ & Hr).
  rewrite IH1, IH2, Hr, Hp, map_app, <- app_assoc, length_app. simpl.
  split_and!; [done|lia|]. etrans; [|exact IH3]. rewrite Hr. by exists [MkBatchItem u r].
Qed.

Lemma rtc_results_prefix (s s' : LoopState) :
  rtc step s s' -> ls_results s `prefix_of` ls_results s'.
Proof. intros (n & Hn)%rtc_nsteps_1. apply (nsteps_results _ _ _ Hn). Qed.

Lemma loop_run_nsteps (n : nat) (s : LoopState) :
  n <= length (ls_pending s) ->
  nsteps step n s (loop_run n s) /\
  length (ls_pending (loop_run n s)) = length (ls_pending s) - n.
Proof.
  revert s. induction n as [|n IH]; intros s Hn; [split; [constructor|simpl; lia]|].
  destruct s as [[|u us] res w]; simpl in Hn; [lia|].
  cbn [BatchLoop.loop_run]. unfold BatchLoop.loop_step. cbn [ls_pending ls_world ls_results].
  destruct (fetchSingleUrl u im sm timeout w) as [w' r] eqn:E.
  destruct (IH (MkLoop us (res ++ [MkBatchItem u r]) w')) as [Hs Hl]; [simpl; lia|].
  split; [|rewrite Hl; simpl; lia].
  eapply nsteps_l; [|exact Hs]. constructor.
  unfold BatchLoop.loop_step. cbn [ls_pending ls_world ls_results]. by rewrite E.
Qed.

(** C9: every URL of the input is eventually served, and for good:
    from the initial state the loop reaches a state whose [results]
    holds, at the URL's own index, an entry for that URL, and every later
    state keeps that entry. *)
Theorem loop_serves_every_url (urls : list string) (w : World) (i : nat) (u : string) :
  urls !! i = Some u ->
  exists s, rtc step (loop_init urls w) s /\
    (exists r, ls_results s !! i = Some (MkBatchItem u r)) /\
    (forall s', rtc step s s' -> ls_results s' !! i = ls_results s !! i).
Proof.
  intros Hi. pose proof (lookup_lt_Some _ _ _ Hi) as Hlt.
  destruct (loop_run_nsteps (S i) (loop_init urls w)) as [Hn _]; [simpl; lia|].
  destruct (nsteps_results _ _ _ Hn) as (Hb & Hlen & _).
  set (s := loop_run (S i) (loop_init urls w)) in *.
  cbn [loop_init ls_results ls_pending map app length Nat.add] in Hb, Hlen.
  destruct (lookup_lt_is_Some_2 (ls_results s) i) as [[u' r] Hr]; [lia|].
  assert (u' = u) as ->.
  { rewrite <- Hb, lookup_app_l, list_lookup_fmap, Hr in Hi by (rewrite length_map; lia).
    by injection Hi. }
  exists s. split; [by eapply rtc_nsteps_2|]. split; [by exists r|].
  intros s' Hs'. rewrite Hr. eapply prefix_lookup_Some; [done|]. by apply rtc_results_prefix.
Qed.
End Steps.

Section Refinement.
Context `{Platform}.

(** [output += ..] over the results is the report of [render_report]. *)
Lemma render_loop_from (items : list BatchItem) (output : string) :
  fold_left (fun output it => output +:+ render_item it) items output =
    output +:+ foldr (fun it acc => render_item it +:+ acc) "" items.
Proof.
  revert output. induction items as [|it items IH]; intros output; simpl.
  - by rewrite string_app_nil_r.
  - by rewrite IH, string_app_assoc.
Qed.

(** The two models of lines 194-233 agree: the handler built from the
    loops as written (a [for ... of] pushing into [results], then a loop
    appending to [output]) is [Tools.fetch_urls_handler], the recursive
    form the batch theorems of [Tools] are stated on; in particular
    [urls.length] iterations are enough for [loop_run]. *)
Lemma fetch_urls_loop_refines (a : BatchArgs) (w : World) :
  fetch_urls_loop a w = fetch_urls_handler a w.
Proof.
  assert (forall urls acc w,
    loop_run (batch_includeMetadata a) (batch_simplify a) (batch_timeout a)
             (length urls) (MkLoop urls acc w) =
    let '(w', items) := fetch_all urls (batch_includeMetadata a) (batch_simplify a)
                                  (batch_timeout a) w in
    MkLoop [] (acc ++ items) w') as Hrun.
  { induction urls as [|u us IH]; intros acc w0; [simpl; by rewrite app_nil_r|].
    cbn [length BatchLoop.loop_run fetch_all]. unfold BatchLoop.loop_step.
    cbn [ls_pending ls_world ls_results].
    destruct (fetchSingleUrl u _ _ _ w0) as [w1 r].
    rewrite IH. destruct (fetch_all us _ _ _ w1) as [w2 items].
    by rewrite <- app_assoc. }
  unfold fetch_urls_loop, fetch_urls_handler, loop_init.
  rewrite Hrun. destruct (fetch_all _ _ _ _ w) as [w' items].
  unfold render_loop, render_report. simpl.
  by rewrite render_loop_from, <- !string_app_assoc.
Qed.
End Refinement.

(** ** Witnesses *)

Lemma loop_serves_every_url_witness :
  exists s, rtc (step (H:=ToolsFacts.ok_site) false true 30000)
              (loop_init ["https://a.example/"; "https://b.example/"] ToolsFacts.w_start) s /\
    (exists r, ls_results s !! 1 = Some (MkBatchItem "https://b.example/" r)) /\
    (forall s', rtc (step (H:=ToolsFacts.ok_site) false true 30000) s s' ->
                ls_results s' !! 1 = ls_results s !! 1).
Proof.
  apply (loop_serves_every_url (H:=ToolsFacts.ok_site) false true 30000 _ ToolsFacts.w_start 1).
  reflexivity.
Defined.
End BatchLoopFacts.
