(* ===== verification/Server.v ===== *)
(** * The server object and its tool registry (index.js 2-13, 52-56, 190-193, 234-237)

    [new McpServer({ name: "fetch", version: "1.0.0" })] creates the
    server; each [server.tool(name, shape, handler)] registers a tool
    whose arguments are a zod object of the given shape.  This file
    models what the registrations declare, apart from the handlers
    ([Tools]):
    - [ParamKind]: the four zod field types the shapes use:
      [z.string().url()], [z.array(z.string().url())],
      [z.boolean().optional().default(d)], [z.number().optional().default(d)];
    - [ParamSpec], [ToolSpec]: a field (name, kind, [.describe(..)] text)
      and a registered tool; [registry] lists them in registration order;
    - [server_start] (lines 234-237): connecting the stdio transport and
      the start-up banner on stderr; [imports] (lines 2-8): the modules
      the program loads.

    Lemmas: what the schemas of [Tools] guarantee of the URLs a handler
    receives ([fetch_url_schema_valid], [fetch_urls_schema_valid]), and
    the refusal of an unregistered name ([call_tool_unregistered]).  The
    README's description of the registry is checked in [Readme]; what a
    session started by [server_start] writes to stderr and which
    requests it issues are [Effects.stderr_invariant] and
    [Effects.session_requests_valid]. *)

From stdpp Require Import base list strings sets.
From Stdlib Require Import ZArith.
From S2P Require Import Prelude JsObject Platform Pipeline Tools.

Module Server.
Import Tools.

Record ServerInfo : Type := MkServerInfo {
  si_name : string;
  si_version : string
}.

(** Lines 2-8: the module specifier of each [import], in order. *)
Definition imports : list string :=
  ["@modelcontextprotocol/sdk/server/mcp.js"; "@modelcontextprotocol/sdk/server/stdio.js";
   "zod"; "axios"; "turndown"; "@mozilla/readability"; "jsdom"].

(** Lines 10-13. *)
Definition server_info : ServerInfo := MkServerInfo "fetch" "1.0.0".

Inductive ParamKind : Type :=
| KUrl
| KUrlArray
| KBool (default : bool)
| KNumber (default : Z).

#[export] Instance ParamKind_eq_dec : EqDecision ParamKind.
Proof. solve_decision. Defined.

Record ParamSpec : Type := MkParam {
  p_name : string;
  p_kind : ParamKind;
  p_description : string
}.

Record ToolSpec : Type := MkTool {
  t_name : string;
  t_params : list ParamSpec
}.

(** Lines 52-56. *)
Definition fetch_url_tool : ToolSpec :=
  MkTool "fetch_url"
    [MkParam "url" KUrl "The URL to fetch and convert to markdown";
     MkParam "includeMetadata" (KBool false) "Include page metadata (title, author, etc.)";
     MkParam "simplify" (KBool true) "Use readability to extract main content only";
     MkParam "timeout" (KNumber 30000) "Request timeout in milliseconds"].

(** Lines 190-193. *)
Definition fetch_urls_tool : ToolSpec :=
  MkTool "fetch_urls"
    [MkParam "urls" KUrlArray "Array of URLs to fetch";
     MkParam "includeMetadata" (KBool false) "Include page metadata";
     MkParam "simplify" (KBool true) "Use readability to extract main content";
     MkParam "timeout" (KNumber 30000) "Request timeout per URL in milliseconds"].

(** Lines 234-237: [new StdioServerTransport()] and
    [server.connect(transport)] open the protocol stream (no effect on
    the modelled world), then the banner goes to stderr. *)
Definition server_start `{Platform} : M unit :=
  console_error "Fetch MCP server running on stdio".

(** The two [server.tool(..)] calls, in program order. *)
Definition registry : list ToolSpec := [fetch_url_tool; fetch_urls_tool].

(** A field without [.optional().default(..)] is required. *)
Definition p_required (p : ParamSpec) : bool :=
  match p_kind p with KUrl | KUrlArray => true | KBool _ | KNumber _ => false end.

End Server.

Module ServerFacts.
Import Tools Server.

Section Zod.
Context `{Platform}.

Lemma zod_url_Some (v : option Json) (s : string) :
  zod_url v = Some s <-> v = Some (JString s) /\ valid_url s = true.
Proof.
  destruct v as [[| | |s'| |]|]; simpl;
    try (split; [discriminate|intros [? ?]; discriminate]).
  destruct (valid_url s') eqn:E; split.
  - intros; simplify_eq. auto.
  - intros [? ?]; simplify_eq. done.
  - discriminate.
  - intros [? ?]; simplify_eq. congruence.
Qed.

Lemma url_items_map (items : list Json) (us : list string) :
  Forall2 (fun j s => zod_url (Some j) = Some s) items us <->
  items = map JString us /\ Forall (fun s => valid_url s = true) us.
Proof.
  revert us. induction items as [|j items IH]; intros [|u us].
  - split; [done|]. constructor.
  - split; [inversion 1|intros [? _]; discriminate].
  - split; [inversion 1|intros [? _]; discriminate].
  - rewrite Forall2_cons, IH, zod_url_Some, Forall_cons. cbn [map]. naive_solver.
Qed.

Lemma zod_url_array_Some (v : option Json) (us : list string) :
  zod_url_array v = Some us <->
  v = Some (JArray (map JString us)) /\ Forall (fun s => valid_url s = true) us.
Proof.
  destruct v as [[| | | | items|]|]; simpl; try naive_solver.
  rewrite mapM_Some, url_items_map. naive_solver.
Qed.

(** The URL of a parsed [fetch_url] call passed zod's [.url()]. *)
Lemma fetch_url_schema_valid (args : JsObject.t Json) (a : FetchArgs) :
  fetch_url_schema args = Some a -> valid_url (arg_url a) = true.
Proof.
  unfold fetch_url_schema. destruct (zod_url _) as [u|] eqn:E; [|done].
  apply zod_url_Some in E as [_ Hv]. simpl.
  destruct (zod_opt_bool _ _), (zod_opt_bool _ _), (zod_opt_number _ _); simpl;
    intros; simplify_eq; done.
Qed.

(** Every URL of a parsed [fetch_urls] call passed zod's [.url()]. *)
Lemma fetch_urls_schema_valid (args : JsObject.t Json) (a : BatchArgs) :
  fetch_urls_schema args = Some a -> Forall (fun u => valid_url u = true) (arg_urls a).
Proof.
  unfold fetch_urls_schema. destruct (zod_url_array _) as [us|] eqn:E; [|done].
  apply zod_url_array_Some in E as [_ Hv]. simpl.
  destruct (zod_opt_bool _ _), (zod_opt_bool _ _), (zod_opt_number _ _); simpl;
    intros; simplify_eq; done.
Qed.

(** A name that was not registered is refused with an invalid-params
    error, and nothing runs. *)
Lemma call_tool_unregistered (name : string) (args : JsObject.t Json) (w : World) :
  name ∉ map t_name registry -> call_tool name args w = (w, InvalidParams).
Proof.
  simpl. rewrite !not_elem_of_cons. intros (H1 & H2 & _).
  unfold call_tool. by rewrite !decide_False.
Qed.
End Zod.
End ServerFacts.
