(* ===== verification/Readme.v ===== *)
(** * The README's description of the tools (src/unnamed/part_000)

    The README documents each tool's parameters (name, whether required,
    default, description), gives one call of each tool as an example,
    and states that redirects are followed up to five times.  This file
    writes those sections down as data, as the README prints them:
    - [DocParam], [DocTool]: one bullet [- `name` (required): text] or
      [- `name` (optional, default: d): text], and one tool section;
    - [Feature], [readme_features] (lines 31-38): the advertised
      features;
    - [readme_tools] (lines 40-68), [readme_max_redirects] (line 93);
    - [McpSettings], [readme_settings] (lines 13-24): the client
      configuration "Installation" asks for; [readme_dependencies]
      (lines 95-102): the packages the README says the server uses;
    - [readme_fetch_url_example], [readme_fetch_urls_example]: the
      argument objects the two example calls denote (lines 51-54 and
      65-68);
    - [Stage], [StageGate], [readme_how_it_works] (lines 70-75): the
      pipeline's stages and the option that enables each (the theorem
      about them is [Effects.readme_stages_gated]).

    Theorems: the README documents the registered tools exactly: same
    tools in the same order, same parameters, requiredness, defaults and
    descriptions, and the redirect limit of [request_config]
    ([readme_documents_registry]); every advertised feature is offered
    by a registered tool, through a parameter where it has a switch
    ([readme_features_offered]); the configuration launches the
    program under the server's own name and the dependency list is the
    set of packages the program imports ([readme_settings_launch],
    [readme_dependencies_imported]); both example calls pass the schemas
    with the documented defaults for the omitted parameters
    ([readme_examples_accepted]).  These are checks of the README's
    constants against the code's; the section "Error Handling" (lines
    77-85) is compared with the code's behaviour in the manifest's
    findings, through the theorems on the error paths of [Pipeline] and
    [Tools]. *)

From stdpp Require Import base list strings.
From Stdlib Require Import ZArith Ascii.
From S2P Require Import Prelude JsObject Platform Readability Pipeline Tools Server.

Module Readme.
Import Tools Server.

Record DocParam : Type := MkDocParam {
  d_name : string;
  d_required : bool;
  d_default : option string;
  d_description : string
}.

Record DocTool : Type := MkDocTool {
  dt_name : string;
  dt_summary : string;
  dt_params : list DocParam
}.

(** Lines 42-49. *)
Definition readme_fetch_url : DocTool :=
  MkDocTool "fetch_url" "Fetches a single URL and converts it to markdown."
    [MkDocParam "url" true None "The URL to fetch and convert to markdown";
     MkDocParam "includeMetadata" false (Some "false") "Include page metadata (title, author, etc.)";
     MkDocParam "simplify" false (Some "true") "Use readability to extract main content only";
     MkDocParam "timeout" false (Some "30000") "Request timeout in milliseconds"].

(** Lines 56-63. *)
Definition readme_fetch_urls : DocTool :=
  MkDocTool "fetch_urls" "Fetches multiple URLs in batch and converts them to markdown."
    [MkDocParam "urls" true None "Array of URLs to fetch";
     MkDocParam "includeMetadata" false (Some "false") "Include page metadata";
     MkDocParam "simplify" false (Some "true") "Use readability to extract main content";
     MkDocParam "timeout" false (Some "30000") "Request timeout per URL in milliseconds"].

(** Lines 31-38: the items of "Features". *)
Inductive Feature : Type :=
| FUrlFetching
| FMarkdownConversion
| FContentExtraction
| FMetadataSupport
| FBatchProcessing
| FTimeoutControl.

Definition readme_features : list Feature :=
  [FUrlFetching; FMarkdownConversion; FContentExtraction; FMetadataSupport; FBatchProcessing;
   FTimeoutControl].

(** Lines 40-68: the section "Available Tools". *)
Definition readme_tools : list DocTool := [readme_fetch_url; readme_fetch_urls].

(** Lines 13-24: the [mcp_settings.json] entry of "Installation". *)
Record McpSettings : Type := MkMcpSettings {
  ms_key : string;
  ms_name : string;
  ms_command : string;
  ms_args : list string;
  ms_cwd : string;
  ms_enabled : bool;
  ms_disabled : bool;
  ms_alwaysAllow : list string
}.

Definition readme_settings : McpSettings :=
  MkMcpSettings "fetch" "fetch" "node" ["build/index.js"] "C:/path/to/your/fetch" true false [].

(** Lines 95-102: "Dependencies", each package with the role the README
    gives it. *)
Definition readme_dependencies : list (string * string) :=
  [("@modelcontextprotocol/sdk", "MCP SDK for server implementation");
   ("axios", "HTTP client for fetching URLs");
   ("turndown", "HTML to Markdown converter");
   ("@mozilla/readability", "Content extraction library");
   ("jsdom", "DOM implementation for Readability");
   ("zod", "Schema validation for tool parameters")].

(** Line 93: "Handles redirects automatically (up to 5 redirects)". *)
Definition readme_max_redirects : Z := 5.

(** Line 54: [fetch_url("https://example.com/article", includeMetadata: true, simplify: true)]. *)
Definition readme_fetch_url_example : JsObject.t Json :=
  [("url", JString "https://example.com/article"); ("includeMetadata", JBool true);
   ("simplify", JBool true)].

(** Line 68: [fetch_urls(["https://example.com/article1", "https://example.com/article2"],
    includeMetadata: true)]. *)
Definition readme_fetch_urls_example : JsObject.t Json :=
  [("urls", JArray [JString "https://example.com/article1"; JString "https://example.com/article2"]);
   ("includeMetadata", JBool true)].

(** Lines 72-75: the four stages of "How It Works". *)
Inductive Stage : Type :=
| ContentFetching
| ContentExtraction
| HtmlToMarkdown
| MetadataExtraction.

(** When the README says a stage runs: always, "when [simplify] is
    enabled", or "optionally" (with [includeMetadata]). *)
Inductive StageGate : Type :=
| Always
| WhenSimplify
| WhenIncludeMetadata.

(** Lines 70-75: "How It Works". *)
Definition readme_how_it_works : list (Stage * StageGate) :=
  [(ContentFetching, Always); (ContentExtraction, WhenSimplify);
   (HtmlToMarkdown, Always); (MetadataExtraction, WhenIncludeMetadata)].
End Readme.

Module ReadmeFacts.
Import Extractor Pipeline PipelineFacts Tools ToolsFacts Server Readme.

(** How the README prints the default of a field. *)
Definition kind_default_text (k : ParamKind) : option string :=
  match k with
  | KBool b => Some (if b then "true" else "false")
  | KNumber n => Some (js_num n)
  | KUrl | KUrlArray => None
  end.

(** A README bullet documents a registered field. *)
Definition documents_param (d : DocParam) (p : ParamSpec) : bool :=
  bool_decide (d_name d = p_name p) && Bool.eqb (d_required d) (p_required p) &&
  bool_decide (d_default d = kind_default_text (p_kind p)) &&
  bool_decide (d_description d = p_description p).

Fixpoint documents_params (ds : list DocParam) (ps : list ParamSpec) : bool :=
  match ds, ps with
  | [], [] => true
  | d :: ds', p :: ps' => documents_param d p && documents_params ds' ps'
  | _, _ => false
  end.

Definition documents_tool (d : DocTool) (t : ToolSpec) : bool :=
  bool_decide (dt_name d = t_name t) && documents_params (dt_params d) (t_params t).

Fixpoint documents_tools (ds : list DocTool) (ts : list ToolSpec) : bool :=
  match ds, ts with
  | [], [] => true
  | d :: ds', t :: ts' => documents_tool d t && documents_tools ds' ts'
  | _, _ => false
  end.

(** The README documents the registered tools exactly: the same
    tools in registration order, each with the same parameters in the
    same order, the same requiredness, the defaults the shapes declare
    and the shapes' [.describe(..)] texts; and the redirect limit it
    states is the one [fetchSingleUrl] passes to axios. *)
Lemma readme_documents_registry :
  documents_tools readme_tools registry = true /\
  forall timeout, cfg_maxRedirects (Pipeline.request_config timeout) = readme_max_redirects.
Proof. split; [vm_compute|]; reflexivity. Qed.

(** The configuration of "Installation" starts [node build/index.js],
    the program of [src/build/index.js], under the name the server gives
    itself, enabled and with no tool pre-approved. *)
Lemma readme_settings_launch :
  ms_key readme_settings = si_name server_info /\ ms_name readme_settings = si_name server_info /\
  ms_command readme_settings = "node" /\ ms_args readme_settings = ["build/index.js"] /\
  ms_enabled readme_settings = true /\ ms_disabled readme_settings = false /\
  ms_alwaysAllow readme_settings = [].
Proof. repeat split. Qed.

(** Where the registered interface offers a feature: the tools that
    provide it and the parameter that controls it, if there is one. *)
Definition feature_control (f : Feature) : list string * option string :=
  match f with
  | FUrlFetching => (["fetch_url"], None)
  | FMarkdownConversion => (["fetch_url"; "fetch_urls"], None)
  | FContentExtraction => (["fetch_url"; "fetch_urls"], Some "simplify")
  | FMetadataSupport => (["fetch_url"; "fetch_urls"], Some "includeMetadata")
  | FBatchProcessing => (["fetch_urls"], Some "urls")
  | FTimeoutControl => (["fetch_url"; "fetch_urls"], Some "timeout")
  end.

(** Each of the tools is registered, with the controlling parameter. *)
Definition offered (f : Feature) : bool :=
  let '(tools, param) := feature_control f in
  forallb (fun name => existsb (fun t => bool_decide (t_name t = name) &&
             match param with
             | None => true
             | Some p => existsb (fun q => bool_decide (p_name q = p)) (t_params t)
             end) registry) tools.

(** Every feature the README advertises is offered by the registered
    tools, through a parameter of the shape where it has a switch. *)
Lemma readme_features_offered : Forall (fun f => offered f = true) readme_features.
Proof. repeat constructor. Qed.

(** The package a bare import specifier resolves to: its first path
    segment, or its first two for a scoped ([@scope/name]) package. *)
Fixpoint upto_slash (n : nat) (s : string) : string :=
  match s with
  | EmptyString => EmptyString
  | String c s' =>
      if bool_decide (c = "/"%char) then
        match n with 0 => EmptyString | S n' => String c (upto_slash n' s') end
      else String c (upto_slash n s')
  end.

Definition package_of (spec : string) : string :=
  match spec with
  | String "@"%char _ => upto_slash 1 spec
  | _ => upto_slash 0 spec
  end.

(** The README's dependency list is exactly the set of packages the
    program imports. *)
Lemma readme_dependencies_imported (d : string) :
  d ∈ readme_dependencies.*1 <-> d ∈ package_of <$> imports.
Proof.
  split; revert d; apply Forall_forall, (bool_decide_unpack _); vm_compute; reflexivity.
Qed.

Section Examples.
Context `{Platform}.

(** The README's two example calls pass validation whenever their
    URLs are valid, and the parameters they omit take the documented
    defaults ([simplify = true], [timeout = 30000]). *)
Theorem readme_examples_accepted :
  valid_url "https://example.com/article" = true ->
  valid_url "https://example.com/article1" = true ->
  valid_url "https://example.com/article2" = true ->
  fetch_url_schema readme_fetch_url_example =
    Some (MkFetchArgs "https://example.com/article" true true 30000) /\
  fetch_urls_schema readme_fetch_urls_example =
    Some (MkBatchArgs ["https://example.com/article1"; "https://example.com/article2"] true true 30000).
Proof.
  intros H1 H2 H3. unfold fetch_url_schema, fetch_urls_schema. simpl.
  rewrite H1, H2, H3. split; reflexivity.
Qed.
End Examples.


Lemma readme_examples_accepted_witness :
  fetch_url_schema (H:=ToolsFacts.ok_site) readme_fetch_url_example =
    Some (MkFetchArgs "https://example.com/article" true true 30000) /\
  fetch_urls_schema (H:=ToolsFacts.ok_site) readme_fetch_urls_example =
    Some (MkBatchArgs ["https://example.com/article1"; "https://example.com/article2"] true true 30000).
Proof. apply (readme_examples_accepted (H:=ToolsFacts.ok_site)); reflexivity. Defined.

End ReadmeFacts.
