(* ===== verification/FrontMatter.v ===== *)
(** * Reading the front matter back (index.js 158-166)

    With [includeMetadata], [fetchSingleUrl] prints the metadata as a
    front-matter block: a line [---], one line [key: value] per entry in
    insertion order, a line [---], an empty line, then the markdown
    ([Pipeline.format_content]).  The specification promises "one
    [key: value] line per entry", that is, a block a reader can parse
    back.  This file gives that reader, the way a client of the server
    reads the block: split the text at newlines ([split_lines], as
    [text.split("\n")]), check the opening [---], read [key: value] lines
    ([split_key], at the first [": "]) up to the closing [---], skip the
    empty line, and join the remaining lines back into the body.

    Theorems: printing then reading gives back the metadata entries and
    the markdown, whenever no key holds [": "] or a newline and no value
    holds a newline ([front_matter_roundtrip]); the code escapes
    neither, so a value holding a newline prints as two entries: the
    printer is not injective, and a [<meta>] tag whose [content] holds
    a newline forges entries ([front_matter_collision]). *)

From stdpp Require Import base list strings.
From Stdlib Require Import Ascii.
From S2P Require Import Prelude JsObject Dom Metadata Pipeline.

Module FrontMatter.
Import Metadata Pipeline.

(** The line feed, the only character of [nl]. *)
Definition lf : ascii := Ascii.ascii_of_nat 10.

Fixpoint no_newline (s : string) : bool :=
  match s with
  | EmptyString => true
  | String c s' => negb (bool_decide (c = lf)) && no_newline s'
  end.

(** [s.split("\n")] *)
Fixpoint split_lines (s : string) : list string :=
  match s with
  | EmptyString => [""]
  | String c s' =>
      if bool_decide (c = lf) then "" :: split_lines s'
      else match split_lines s' with
           | [] => [String c ""]
           | l :: ls => String c l :: ls
           end
  end.

(** [lines.join("\n")] *)
Fixpoint join_lines (ls : list string) : string :=
  match ls with
  | [] => ""
  | [l] => l
  | l :: ls' => l +:+ nl +:+ join_lines ls'
  end.

(** A [key: value] line cut at its first [": "]. *)
Fixpoint split_key (s : string) : option (string * string) :=
  match s with
  | EmptyString => None
  | String c s' =>
      match s' with
      | String c2 r =>
          if bool_decide (c = ":"%char) && bool_decide (c2 = " "%char) then Some ("", r)
          else kv ← split_key s'; Some (String c kv.1, kv.2)
      | EmptyString => None
      end
  end.

(** The entry lines up to the closing [---], and the lines after it. *)
Fixpoint read_entries (ls : list string) : option (list (string * string) * list string) :=
  match ls with
  | [] => None
  | l :: ls' =>
      if bool_decide (l = "---") then Some ([], ls')
      else kv ← split_key l; res ← read_entries ls'; Some (kv :: res.1, res.2)
  end.

(** A text that starts with a front-matter block: its entries and the
    body after the empty line. *)
Definition read_front_matter (s : string) : option (list (string * string) * string) :=
  match split_lines s with
  | l :: ls =>
      if bool_decide (l = "---") then
        res ← read_entries ls;
        match res.2 with
        | blank :: body => if bool_decide (blank = "") then Some (res.1, join_lines body) else None
        | [] => None
        end
      else None
  | [] => None
  end.

(** An entry the block can carry: its line is one line and the key's end
    is the first [": "] of it. *)
Definition fm_safe (e : string * string) : bool :=
  negb (includes e.1 ": ") && no_newline e.1 && no_newline e.2.
End FrontMatter.

Module FrontMatterFacts.
Import Metadata Pipeline FrontMatter.

Lemma nl_lf : nl = String lf "".
Proof. reflexivity. Qed.

Lemma no_newline_app (a b : string) :
  no_newline (a +:+ b) = no_newline a && no_newline b.
Proof.
  induction a as [|c a IH]; [done|].
  rewrite string_app_cons. simpl. rewrite IH. by destruct (negb _).
Qed.

Lemma split_lines_nonempty (s : string) : split_lines s <> [].
Proof.
  induction s as [|c s IH]; simpl; [done|].
  case_decide; [done|]. by destruct (split_lines s).
Qed.

Lemma join_lines_cons_char (c : ascii) (l : string) (ls : list string) :
  join_lines (String c l :: ls) = String c (join_lines (l :: ls)).
Proof. destruct ls; simpl; [done|]. by rewrite string_app_cons. Qed.

(** [split_lines] and [join_lines] are inverse: [s.split("\n").join("\n") = s]. *)
Lemma join_split_lines (s : string) : join_lines (split_lines s) = s.
Proof.
  induction s as [|c s IH]; [done|]. simpl.
  destruct (decide (c = lf)) as [->|Hc].
  - rewrite bool_decide_true by done. destruct (split_lines s) as [|l ls] eqn:E; [by destruct (split_lines_nonempty s)|].
    simpl. rewrite string_app_nil_l, <- IH. destruct ls; reflexivity.
  - rewrite bool_decide_false by done.
    destruct (split_lines s) as [|l ls] eqn:E; [by destruct (split_lines_nonempty s)|].
    by rewrite join_lines_cons_char, IH.
Qed.

Lemma split_lines_line (l r : string) :
  no_newline l = true -> split_lines (l +:+ nl +:+ r) = l :: split_lines r.
Proof.
  induction l as [|c l IH]; intros Hl.
  - rewrite string_app_nil_l, nl_lf, string_app_cons, string_app_nil_l. simpl.
    by rewrite ?bool_decide_true.
  - simpl in Hl. apply andb_prop in Hl as [Hc Hl].
    rewrite string_app_cons. simpl. rewrite bool_decide_false by (intros ->; done).
    by rewrite IH.
Qed.

Lemma split_key_cons (c : ascii) (s : string) :
  split_key (String c s) =
    match s with
    | String c2 r =>
        if bool_decide (c = ":"%char) && bool_decide (c2 = " "%char) then Some ("", r)
        else kv ← split_key s; Some (String c kv.1, kv.2)
    | EmptyString => None
    end.
Proof. reflexivity. Qed.

Lemma split_key_line (k v : string) :
  includes k ": " = false -> split_key (k +:+ ": " +:+ v) = Some (k, v).
Proof.
  induction k as [|c k IH]; intros Hk; [reflexivity|].
  change (includes (String c k) ": ") with (String.prefix ": " (String c k) || includes k ": ") in Hk.
  apply orb_false_elim in Hk as [Hp Hk].
  rewrite string_app_cons, split_key_cons, IH by done.
  destruct (k +:+ ": " +:+ v) as [|c2 r] eqn:E; [by destruct k|]. simpl.
  destruct (bool_decide (c = ":"%char)) eqn:Hc; [|done].
  destruct (bool_decide (c2 = " "%char)) eqn:Hc2; [|done]. exfalso.
  apply bool_decide_eq_true in Hc, Hc2. subst.
  destruct k as [|c' k]; [discriminate|].
  rewrite string_app_cons in E. injection E as -> _.
  change (String ":" (String " " k)) with (": " +:+ k) in Hp.
  by rewrite prefix_app in Hp.
Qed.

(** The line of an entry, without its newline. *)
Definition fm_text (e : string * string) : string := e.1 +:+ ": " +:+ e.2.

Lemma fm_text_not_delimiter (e : string * string) : fm_text e <> "---".
Proof.
  intros He.
  assert (includes (fm_text e) ": " = true) as Hin
    by (apply includes_app_r, includes_app_l, includes_refl).
  rewrite He in Hin. discriminate Hin.
Qed.

Lemma fm_safe_no_newline (e : string * string) :
  fm_safe e = true -> no_newline (fm_text e) = true.
Proof.
  unfold fm_safe, fm_text. intros He.
  apply andb_prop in He as [He H2]. apply andb_prop in He as [_ H1].
  by rewrite !no_newline_app, H1, H2.
Qed.

Lemma split_front_matter_lines (es : list (string * string)) (r : string) :
  Forall (fun e => fm_safe e = true) es ->
  split_lines (front_matter_lines es +:+ r) = map fm_text es ++ split_lines r.
Proof.
  induction 1 as [|e es He _ IH]; [by rewrite string_app_nil_l|].
  cbn [front_matter_lines foldr map]. fold (front_matter_lines es).
  assert ((front_matter_line e +:+ front_matter_lines es) +:+ r =
          fm_text e +:+ nl +:+ (front_matter_lines es +:+ r)) as ->
    by (unfold front_matter_line, fm_text; by rewrite <- !string_app_assoc).
  rewrite split_lines_line; [by rewrite IH|]. by apply fm_safe_no_newline.
Qed.

Lemma read_entries_lines (es : list (string * string)) (rest : list string) :
  Forall (fun e => fm_safe e = true) es ->
  read_entries (map fm_text es ++ "---" :: rest) = Some (es, rest).
Proof.
  induction 1 as [|[k v] es He _ IH]; cbn [map app read_entries].
  - by rewrite bool_decide_true.
  - rewrite bool_decide_false by apply (fm_text_not_delimiter (k, v)).
    apply andb_prop in He as [He _]. apply andb_prop in He as [He _].
    apply negb_true_iff in He.
    assert (split_key (fm_text (k, v)) = Some (k, v)) as -> by exact (split_key_line k v He).
    simpl. by rewrite IH.
Qed.

(** Reading back what [format_content] prints. *)
Lemma read_format_content (md : Meta) (markdown : string) :
  md <> [] -> Forall (fun e => fm_safe e = true) (JsObject.entries md) ->
  read_front_matter (format_content true md markdown) = Some (JsObject.entries md, markdown).
Proof.
  intros Hne Hsafe. unfold read_front_matter, format_content.
  rewrite bool_decide_true by (destruct md; [done|simpl; lia]). simpl.
  rewrite <- !string_app_assoc, string_app_nil_l, split_front_matter_lines by done.
  rewrite split_lines_line by reflexivity.
  rewrite <- (string_app_nil_l (nl +:+ markdown)), split_lines_line by reflexivity.
  rewrite read_entries_lines by done. simpl.
  by rewrite join_split_lines.
Qed.

(** C8: the front matter is a faithful serialization of the metadata:
    reading back the text [format_content] prints for a non-empty
    object gives exactly its entries, in insertion order, and the
    markdown that follows, provided no key contains [": "] or a newline
    and no value contains a newline. *)
Theorem front_matter_roundtrip (md : Meta) (markdown : string) :
  md <> [] -> Forall (fun e => fm_safe e = true) (JsObject.entries md) ->
  read_front_matter (format_content true md markdown) = Some (JsObject.entries md, markdown).
Proof. apply read_format_content. Qed.

(** C20: the front matter does not escape newlines, so it is not a
    faithful serialization of the metadata: in any metadata object, an
    entry [k] whose value holds a newline followed by [k': v'] prints
    exactly as the two entries [k: v] and [k': v'], whatever the other
    entries and the markdown.  Two different objects give the same
    output, and a client reading it gets the object with the forged
    entry: a page's [<meta content>] can forge entries. *)
Theorem front_matter_collision (pre post : Meta) (k v k' v' markdown : string) :
  Forall (fun e => fm_safe e = true) (pre ++ (k, v) :: (k', v') :: post) ->
  pre ++ (k, v +:+ nl +:+ k' +:+ ": " +:+ v') :: post <> pre ++ (k, v) :: (k', v') :: post /\
  format_content true (pre ++ (k, v +:+ nl +:+ k' +:+ ": " +:+ v') :: post) markdown =
  format_content true (pre ++ (k, v) :: (k', v') :: post) markdown /\
  read_front_matter (format_content true (pre ++ (k, v +:+ nl +:+ k' +:+ ": " +:+ v') :: post)
                                     markdown) =
    Some (pre ++ (k, v) :: (k', v') :: post, markdown).
Proof.
  intros Hsafe.
  assert (format_content true (pre ++ (k, v +:+ nl +:+ k' +:+ ": " +:+ v') :: post) markdown =
          format_content true (pre ++ (k, v) :: (k', v') :: post) markdown) as Heq.
  { unfold format_content, JsObject.entries, JsObject.keys.
    rewrite !bool_decide_true by (rewrite length_map, length_app; simpl; lia).
    rewrite !PipelineFacts.front_matter_lines_app. cbn [front_matter_lines foldr].
    unfold front_matter_line. cbn [fst snd].
    by rewrite <- !string_app_assoc. }
  split_and!; [|done|].
  - intros Hl. apply (f_equal length) in Hl. rewrite !length_app in Hl. simpl in Hl. lia.
  - rewrite Heq. apply read_format_content; [by destruct pre|done].
Qed.

(** ** Witnesses *)

Lemma front_matter_collision_witness :
  [("description", "a" +:+ nl +:+ "author" +:+ ": " +:+ "b")] <>
    [("description", "a"); ("author", "b")] /\
  format_content true [("description", "a" +:+ nl +:+ "author" +:+ ": " +:+ "b")] "Hi" =
    format_content true [("description", "a"); ("author", "b")] "Hi" /\
  read_front_matter (format_content true [("description", "a" +:+ nl +:+ "author" +:+ ": " +:+ "b")]
                                     "Hi") =
    Some ([("description", "a"); ("author", "b")], "Hi").
Proof.
  apply (front_matter_collision [] [] "description" "a" "author" "b" "Hi").
  repeat constructor.
Defined.

Lemma front_matter_roundtrip_witness :
  read_front_matter (format_content true [("title", "Hello"); ("og:type", "article")] "# Hello") =
    Some (JsObject.entries [("title", "Hello"); ("og:type", "article")], "# Hello").
Proof.
  apply front_matter_roundtrip; [discriminate|].
  repeat constructor.
Defined.
End FrontMatterFacts.
