(* ===== verification/Effects.v ===== *)
(** * What a fetch reads and writes, and a session of the server
      (index.js 32-50, 52-80, 82-187, 189-237)

    [fetchSingleUrl] consults four collaborators besides the network:
    Readability (through [extractReadableContent]), Turndown, jsdom (for
    the metadata) and the clock; and it writes to two logs: the request
    log and stderr.  This file states, over the whole pipeline and over
    a whole session of the server, which collaborators each option
    brings in and what the server writes to each log:
    - [with_readability], [with_page_model]: a platform that differs from
      a given one only in Readability, or only in jsdom and the clock;
    - [stage_unused]: what it means for the result of a fetch not to
      depend on a stage of the README's "How It Works";
    - [grows log P]: from one world to a later one, the log only gained
      entries satisfying [P] (a preorder); [readability_line]: the line a
      Readability failure writes to stderr (line 47); [request_ok]: a
      request to a URL zod accepted, with the configuration of lines
      85-95;
    - [serve_step]: one [tools/call] request served after [connect].
      The SDK may start a request's handler before the previous one has
      finished (the handlers are [async]); [serve_step] serves them one
      after the other, so the session theorems are about sequential
      service.  They are statements about what each call appends to a
      log, which hold of every call, but an interleaving of the steps of
      two calls is not modelled.

    Theorems: the stages the README makes optional are not consulted
    when their option is off ([readme_stages_gated]); over a whole
    session the server writes to stderr its start-up banner and then
    only Readability-failure lines ([stderr_invariant]), and every HTTP
    request it issues is to a URL a schema accepted, with the fixed
    configuration ([session_requests_valid]).  The proofs go through
    [writes_ok] (the computations of [M] that write only such lines,
    with a rule per monadic construct, hint database [effects]) and
    through the composition lemmas [fetch_all_grows], [call_tool_grows]
    and [session_grows], shared by both logs.  The two theorems on what
    [simplify] changes for one fetch are in [Pipeline]. *)

From stdpp Require Import base list strings sets relations.
From Stdlib Require Import ZArith.
From S2P Require Import Prelude JsObject Dom Turndown Platform Readability Metadata Pipeline Tools Server Readme.

Module Effects.
Import Extractor Pipeline Readme.

(** The platform [P] with Readability replaced by [r]. *)
Definition with_readability (P : Platform) (r : string -> string -> ReadResult) : Platform := {|
  net := @net P;
  now_iso := @now_iso P;
  jsdom_parse := @jsdom_parse P;
  readability_parse := r;
  turndown_lib := @turndown_lib P;
  valid_url := @valid_url P
|}.

(** The platform [P] with jsdom's parser and the clock replaced. *)
Definition with_page_model (P : Platform) (parse : string -> Dom.Document)
           (clock : World -> string) : Platform := {|
  net := @net P;
  now_iso := clock;
  jsdom_parse := parse;
  readability_parse := @readability_parse P;
  turndown_lib := @turndown_lib P;
  valid_url := @valid_url P
|}.

(** Whether a stage's option is on. *)
Definition gate_on (g : StageGate) (im sm : bool) : bool :=
  match g with
  | Always => true
  | WhenSimplify => sm
  | WhenIncludeMetadata => im
  end.

(** The result of [fetchSingleUrl url im sm timeout] in world [w] does
    not depend on the collaborator of stage [st]. *)
Definition stage_unused (st : Stage) (url : string) (im sm : bool) (timeout : Z) (w : World)
  : Prop :=
  match st with
  | ContentExtraction => forall P r,
      fetchSingleUrl (H:=with_readability P r) url im sm timeout w =
      fetchSingleUrl (H:=P) url im sm timeout w
  | MetadataExtraction => forall P parse clock,
      fetchSingleUrl (H:=with_page_model P parse clock) url im sm timeout w =
      fetchSingleUrl (H:=P) url im sm timeout w
  | ContentFetching | HtmlToMarkdown => False
  end.

(** The line [console.error('Readability extraction failed:', error)]
    writes (line 47). *)
Definition readability_line (l : string) : Prop :=
  exists m, l = "Readability extraction failed: " +:+ m.

(** From [w] to [w'] the log [log] (the request log or stderr) only
    gained entries satisfying [P]. *)
Definition grows {A} (log : World -> list A) (P : A -> Prop) (w w' : World) : Prop :=
  exists new, log w' = log w ++ new /\ Forall P new.

(** Stderr only gained Readability-failure lines. *)
Abbreviation stderr_ext := (grows w_stderr readability_line).

(** A request to a URL zod's [.url()] accepted, with the configuration
    of lines 85-95 for some timeout. *)
Definition request_ok `{Platform} (e : string * RequestConfig) : Prop :=
  valid_url e.1 = true /\ exists t, e.2 = Pipeline.request_config t.

(** Line 236: once [server.connect(transport)] has returned, the SDK
    serves [tools/call] requests, each through the dispatch
    [Tools.call_tool]; here one after the other, each in the world the
    previous one left (see the header on interleaving). *)
Inductive serve_step `{Platform} : World -> World -> Prop :=
| serve_call (name : string) (args : JsObject.t Tools.Json) (w w' : World) (o : Tools.CallOutcome) :
    Tools.call_tool name args w = (w', o) -> serve_step w w'.
End Effects.

Module EffectsFacts.
Import Extractor Pipeline PipelineFacts Tools Readme Effects.

(** C21: the README's "How It Works" against the code: a stage the
    README makes optional is not consulted when its option is off:
    without [simplify] the result of a fetch is the same whatever
    Readability does, and without [includeMetadata] it is the same
    whatever jsdom and the clock do. *)
Theorem readme_stages_gated (st : Stage) (g : StageGate) (url : string) (im sm : bool)
        (timeout : Z) (w : World) :
  (st, g) ∈ readme_how_it_works -> gate_on g im sm = false ->
  stage_unused st url im sm timeout w.
Proof.
  unfold readme_how_it_works.
  intros Hin Hoff. repeat (apply elem_of_cons in Hin as [Heq|Hin]; [injection Heq as -> ->|]);
    [done| | done| |set_solver]; simpl in Hoff; subst; unfold stage_unused; intros; reflexivity.
Qed.

#[export] Instance grows_preorder {A} (log : World -> list A) (P : A -> Prop) :
  PreOrder (grows log P).
Proof.
  split.
  - intros w. exists []. by rewrite app_nil_r.
  - intros w1 w2 w3 (n1 & E1 & F1) (n2 & E2 & F2). exists (n1 ++ n2).
    rewrite E2, E1, app_assoc. split; [done|]. by apply Forall_app.
Qed.

Section Writes.
Context `{Platform}.

(** A computation that writes to stderr only Readability-failure lines. *)
Definition writes_ok {A} (m : M A) : Prop := forall w, stderr_ext w (run_st m w).1.

Lemma writes_ok_ret {A} (x : A) : writes_ok (mret x).
Proof. intros w. reflexivity. Qed.

Lemma writes_ok_throw {A} (e : JsError) : writes_ok (A:=A) (throw e).
Proof. intros w. reflexivity. Qed.

Lemma writes_ok_bind {A B} (m : M A) (f : A -> M B) :
  writes_ok m -> (forall x, writes_ok (f x)) -> writes_ok (m ≫= f).
Proof.
  intros Hm Hf w. rewrite run_bind. specialize (Hm w).
  destruct (run_st m w) as [w1 [e|x]]; [done|]. by etrans; [|apply Hf].
Qed.

Lemma writes_ok_state {A} (f : World -> A) : writes_ok (st_state (fun w => (w, f w))).
Proof. intros w. reflexivity. Qed.

Lemma writes_ok_axios_get url cfg : writes_ok (axios_get url cfg).
Proof.
  intros w. unfold axios_get. simpl.
  destruct (net _ _ _) as [r| |]; [destruct (cfg_validateStatus _ _)| |];
    exists []; by rewrite app_nil_r.
Qed.

Lemma writes_ok_turndown v : writes_ok (turndown v).
Proof. destruct v; [apply writes_ok_ret|apply writes_ok_throw]. Qed.

Lemma writes_ok_console_error l : readability_line l -> writes_ok (console_error l).
Proof. intros Hl w. exists [l]. split; [done|]. by constructor. Qed.
End Writes.

Create HintDb effects discriminated.
#[export] Hint Resolve writes_ok_ret writes_ok_throw writes_ok_bind writes_ok_state
  writes_ok_axios_get writes_ok_turndown writes_ok_console_error : effects.
#[export] Hint Extern 1 (readability_line _) => eexists; reflexivity : effects.

Section Operations.
Context `{Platform}.

Lemma writes_ok_extract html url : writes_ok (extractReadableContent html url).
Proof.
  unfold extractReadableContent.
  destruct (readability_parse html url) as [m| |[t|] [c|] b]; auto with effects.
  destruct (truthy _ && truthy _); auto with effects.
Qed.

Lemma writes_ok_fetch_body url im sm timeout : writes_ok (fetch_body url im sm timeout).
Proof.
  unfold fetch_body, convert_page, add_metadata.
  apply writes_ok_bind; [auto with effects|intros r].
  apply writes_ok_bind; [|intros p; destruct im; eauto with effects].
  destruct sm; [|auto with effects].
  apply writes_ok_bind; [apply writes_ok_extract|intros [a|]; auto with effects].
Qed.

Lemma stderr_fetchSingleUrl url im sm timeout w :
  stderr_ext w (fetchSingleUrl url im sm timeout w).1.
Proof.
  pose proof (writes_ok_fetch_body url im sm timeout w) as Hb.
  unfold fetchSingleUrl, try_catch. by destruct (run_st _ w) as [w' [e|x]].
Qed.

Lemma stderr_fetch_all urls im sm timeout w :
  stderr_ext w (fetch_all urls im sm timeout w).1.
Proof.
  revert w. induction urls as [|u us IH]; intros w; [reflexivity|]. simpl.
  pose proof (stderr_fetchSingleUrl u im sm timeout w) as H1.
  destruct (fetchSingleUrl u im sm timeout w) as [w1 r].
  specialize (IH w1). destruct (fetch_all us im sm timeout w1) as [w2 items].
  by etrans.
Qed.

End Operations.

Section Composition.
Context `{Platform}.
Variable R : World -> World -> Prop.
Context `{!PreOrder R}.

(** A batch grows [R] when each of its fetches does. *)
Lemma fetch_all_grows urls im sm timeout w :
  (forall u w, u ∈ urls -> R w (fetchSingleUrl u im sm timeout w).1) ->
  R w (fetch_all urls im sm timeout w).1.
Proof.
  revert w. induction urls as [|u us IH]; intros w Hf; [reflexivity|]. simpl.
  pose proof (Hf u w (list_elem_of_here _ _)) as H1.
  destruct (fetchSingleUrl u im sm timeout w) as [w1 r].
  specialize (IH w1 (fun u' w' Hu' => Hf u' w' (list_elem_of_further _ _ _ Hu'))).
  destruct (fetch_all us im sm timeout w1) as [w2 items]. by etrans.
Qed.

(** A [tools/call] grows [R] when the fetches of accepted arguments do. *)
Lemma call_tool_grows name args w :
  (forall a, fetch_url_schema args = Some a ->
     R w (fetchSingleUrl (arg_url a) (arg_includeMetadata a) (arg_simplify a) (arg_timeout a) w).1) ->
  (forall a, fetch_urls_schema args = Some a ->
     R w (fetch_all (arg_urls a) (batch_includeMetadata a) (batch_simplify a) (batch_timeout a) w).1) ->
  R w (call_tool name args w).1.
Proof.
  intros Hone Hall. unfold call_tool, fetch_url_handler, fetch_urls_handler.
  case_decide; [|case_decide]; [..|reflexivity];
    [destruct (fetch_url_schema args) as [a|] eqn:E | destruct (fetch_urls_schema args) as [a|] eqn:E];
    [|reflexivity| |reflexivity].
  - specialize (Hone a eq_refl).
    destruct (fetchSingleUrl _ _ _ _ w) as [w' [c|e]]; [destruct (truthy _)|]; done.
  - specialize (Hall a eq_refl). by destruct (fetch_all _ _ _ _ w) as [w' items].
Qed.

(** A session grows [R] when every [tools/call] does. *)
Lemma session_grows w1 w2 :
  (forall name args w, R w (call_tool name args w).1) -> rtc serve_step w1 w2 -> R w1 w2.
Proof.
  intros Hcall Hrun.
  induction Hrun as [|u1 u2 u3 [name args u u' o Hc] _ IH]; [reflexivity|].
  etrans; [|exact IH]. pose proof (Hcall name args u) as Hs. by rewrite Hc in Hs.
Qed.
End Composition.

Section Requests.
Context `{Platform}.

Lemma requests_fetchSingleUrl url im sm timeout w :
  valid_url url = true -> grows w_requests request_ok w (fetchSingleUrl url im sm timeout w).1.
Proof.
  intros Hv. unfold grows. rewrite fetch_requests.
  eexists; split; [reflexivity|]. destruct (net _ _ _); repeat constructor; eauto.
Qed.

Lemma requests_call_tool name args w : grows w_requests request_ok w (call_tool name args w).1.
Proof.
  apply call_tool_grows; [typeclasses eauto|..]; intros a Ha.
  - apply requests_fetchSingleUrl, (Server.ServerFacts.fetch_url_schema_valid args), Ha.
  - apply (fetch_all_grows _). intros u w' Hu. apply requests_fetchSingleUrl.
    apply Server.ServerFacts.fetch_urls_schema_valid in Ha. rewrite Forall_forall in Ha. by apply Ha.
Qed.
End Requests.


(** C10: what the server writes to stderr, over a whole session: started
    with an empty stderr, after [server_start] (lines 234-237) and any
    sequence of served [tools/call] requests, stderr holds the start-up
    banner and after it only [Readability extraction failed: ..] lines
    (line 47); no tool call and no fetch error writes anything else. *)
Theorem stderr_invariant `{Platform} (w0 w : World) :
  w_stderr w0 = [] ->
  rtc serve_step (run_st Server.server_start w0).1 w ->
  exists rest, w_stderr w = "Fetch MCP server running on stdio" :: rest /\
    Forall readability_line rest.
Proof.
  intros H0 Hrun.
  assert (stderr_ext (run_st Server.server_start w0).1 w) as (rest & E & F).
  { apply (session_grows _); [|done]. intros name args u.
    apply call_tool_grows; [typeclasses eauto|..]; intros; [apply stderr_fetchSingleUrl|].
    apply (fetch_all_grows _). intros. apply stderr_fetchSingleUrl. }
  exists rest. rewrite E. unfold Server.server_start, console_error. simpl. by rewrite H0.
Qed.

(** C11: what the server sends to the network, over a whole session:
    started with an empty request log, after [server_start] and any
    sequence of served [tools/call] requests, every HTTP request issued
    is a GET of a URL that zod's [.url()] accepted (line 53 or 190),
    with the headers, redirect limit and status check of lines 85-95
    and a timeout given by the caller: no argument refused by a schema
    ever reaches axios. *)
Theorem session_requests_valid `{Platform} (w0 w : World) :
  w_requests w0 = [] ->
  rtc serve_step (run_st Server.server_start w0).1 w ->
  Forall (fun '(u, cfg) => valid_url u = true /\ exists t, cfg = request_config t)
         (w_requests w).
Proof.
  intros H0 Hrun.
  destruct (session_grows _ _ _ requests_call_tool Hrun) as (new & E & F).
  rewrite E. unfold Server.server_start, console_error. simpl. rewrite H0. simpl.
  eapply Forall_impl; [exact F|]. intros [u cfg]. done.
Qed.

(** ** Witnesses *)

Definition throw_site : Platform :=
  static_site (TResponse (MkResponse 200 "OK" (JStr "<p>Hi</p>"))) [] (RThrow "boom") echo_lib.

Lemma readme_stages_gated_witness :
  stage_unused ContentExtraction "https://a.example/" false false 30000 ToolsFacts.w_start.
Proof.
  apply (readme_stages_gated ContentExtraction WhenSimplify "https://a.example/" false false
           30000 ToolsFacts.w_start); [|reflexivity].
  apply list_elem_of_In. simpl. right. left. reflexivity.
Defined.

Lemma stderr_invariant_witness :
  exists rest, w_stderr (Tools.call_tool (H:=throw_site) "fetch_url"
                  [("url", Tools.JString "https://a.example/")]
                  (run_st (Server.server_start (H:=throw_site)) ToolsFacts.w_start).1).1 =
    "Fetch MCP server running on stdio" :: rest /\ Forall readability_line rest.
Proof.
  apply (stderr_invariant (H:=throw_site) ToolsFacts.w_start); [reflexivity|].
  apply rtc_once. eapply serve_call. apply surjective_pairing.
Defined.
Lemma session_requests_valid_witness :
  Forall (fun '(u, cfg) => valid_url (Platform:=throw_site) u = true /\
                           exists t, cfg = request_config t)
    (w_requests (Tools.call_tool (H:=throw_site) "fetch_urls"
                  [("urls", Tools.JArray [Tools.JString "https://a.example/";
                                          Tools.JString "https://b.example/"])]
                  (run_st (Server.server_start (H:=throw_site)) ToolsFacts.w_start).1).1).
Proof.
  apply (session_requests_valid (H:=throw_site) ToolsFacts.w_start); [reflexivity|].
  apply rtc_once. eapply serve_call. apply surjective_pairing.
Defined.
End EffectsFacts.
